(** * The learning_abci skill: rounds, parameters and behaviours

    A shallow embedding of
    - [packages/valory/skills/learning_abci/rounds.py],
    - [packages/valory/skills/learning_abci/models.py],
    - [packages/valory/skills/learning_abci/behaviours.py],
    followed by the properties of the workflow that are proved about it.

    Python [float] is IEEE 754 binary64, as is Rocq's primitive [float];
    balances, prices, percentages and values are floats, as the source
    annotates them. A Python [dict] that is iterated is an association
    list in insertion order; the replicated key/value store is a [gmap].
    Logging has no effect on results and is left out; the calls to the
    external collaborators (HTTP, contracts, IPFS, JSON) are fields of
    the behaviour context. *)

From Stdlib Require Import PrimFloat SpecFloat FloatAxioms.
From stdpp Require Import base option list gmap strings relations.

Local Open Scope string_scope.
Local Open Scope list_scope.
Local Open Scope nat_scope.
Local Open Scope stdpp_scope.

(** ** Python values, exceptions and dictionaries *)

Module Py.

(** The exceptions the modelled code can raise. *)
Inductive Exc : Type :=
| ZeroDivisionError
| IndexError
| TypeError
| ValueError (msg : string).

(** A computation either returns or raises. *)
Inductive Res (A : Type) : Type :=
| Return (a : A)
| Raise (e : Exc).
Arguments Return {A} a.
Arguments Raise {A} e.

#[export] Instance Res_ret : MRet Res := fun A a => Return a.
#[export] Instance Res_bind : MBind Res := fun A B f m =>
  match m with
  | Return a => f a
  | Raise e => Raise e
  end.
#[export] Instance Res_fmap : FMap Res := fun A B f m =>
  match m with
  | Return a => Return (f a)
  | Raise e => Raise e
  end.

(** [a / b] on floats: Python raises on a zero divisor (either sign),
    otherwise the quotient is the IEEE one. *)
Definition truediv (a b : float) : Res float :=
  if (b =? 0)%float then Raise ZeroDivisionError else Return (a / b)%float.

(** [sum(l)]: a left fold from 0, as CPython computes it up to version
    3.11 (later versions compensate the rounding of float sums). *)
Definition sum (l : list float) : float := fold_left PrimFloat.add l 0%float.

(** [l[i]] on a list. *)
Definition getitem {A} (l : list A) (i : nat) : Res A :=
  match l !! i with
  | Some x => Return x
  | None => Raise IndexError
  end.

(** [enumerate(l)]. *)
Definition enumerate {A} (l : list A) : list (nat * A) := imap (fun i x => (i, x)) l.

(** [l.index(x)] on a list of strings. *)
Fixpoint index (l : list string) (x : string) : Res nat :=
  match l with
  | [] => Raise (ValueError "x is not in list")
  | y :: r => if String.eqb y x then Return 0 else S <$> index r x
  end.

End Py.

(** A [dict] with string keys: association list in insertion order,
    keys pairwise distinct. *)
Module PyDict.

Definition t (V : Type) : Type := list (string * V).

Definition empty {V} : t V := [].

(** [d.get(k)] *)
Fixpoint get {V} (d : t V) (k : string) : option V :=
  match d with
  | [] => None
  | (k', v) :: r => if String.eqb k' k then Some v else get r k
  end.

(** [d[k] = v]: overwrite in place, or append a new key. *)
Fixpoint setitem {V} (d : t V) (k : string) (v : V) : t V :=
  match d with
  | [] => [(k, v)]
  | (k', v') :: r =>
      if String.eqb k' k then (k', v) :: r else (k', v') :: setitem r k v
  end.

Definition keys {V} (d : t V) : list string := d.*1.
Definition values {V} (d : t V) : list V := d.*2.
Definition items {V} (d : t V) : list (string * V) := d.

(** Truth value of a dict: non-empty. *)
Definition truthy {V} (d : t V) : bool :=
  match d with [] => false | _ => true end.

End PyDict.

(** ** rounds.py *)

Module Rounds.

(** class Event(Enum) *)
Inductive Event : Type :=
| DONE
| ERROR
| TRANSACT
| NO_MAJORITY
| ROUND_TIMEOUT
| COINGECKO
| COINMARKETCAP.

#[export] Instance Event_eq_dec : EqDecision Event.
Proof. solve_decision. Defined.

(** [Event.X.value] *)
Definition Event_value (e : Event) : string :=
  match e with
  | DONE => "done"
  | ERROR => "error"
  | TRANSACT => "transact"
  | NO_MAJORITY => "no_majority"
  | ROUND_TIMEOUT => "round_timeout"
  | COINGECKO => "coingecko"
  | COINMARKETCAP => "coinmarketcap"
  end.

(** *** Payloads

    [payloads.py] declares one frozen dataclass per round; the fields
    are those the behaviours pass to the constructors, in that order. *)

(** A payload field value. *)
Inductive Scalar : Type :=
| SNone
| SStr (s : string)
| SFloat (f : float).

(** Python [==] on field values; IEEE equality on floats. *)
Definition Scalar_eqb (a b : Scalar) : bool :=
  match a, b with
  | SNone, SNone => true
  | SStr s, SStr t => String.eqb s t
  | SFloat f, SFloat g => (f =? g)%float
  | _, _ => false
  end.

Fixpoint list_eqb {A} (eqb : A -> A -> bool) (l1 l2 : list A) : bool :=
  match l1, l2 with
  | [], [] => true
  | a :: r1, b :: r2 => eqb a b && list_eqb eqb r1 r2
  | _, _ => false
  end.

Definition of_optional_str (o : option string) : Scalar :=
  match o with Some s => SStr s | None => SNone end.
Definition of_optional_float (o : option float) : Scalar :=
  match o with Some f => SFloat f | None => SNone end.

(** The interface of a payload class: the sender, and [values], the
    tuple of the business fields (sender excluded). *)
Class BaseTxPayload (P : Type) : Type := {
  sender : P -> string;
  values : P -> list Scalar
}.

Module ApiSelectionPayload.
Record t : Type := { sender : string; api_selection : string }.
End ApiSelectionPayload.

Module DataPullPayload.
Record t : Type := {
  sender : string;
  token_values : option string;
  total_portfolio_value : option float
}.
End DataPullPayload.

Module AlternativeDataPullPayload.
Record t : Type := {
  sender : string;
  token_values : option string;
  total_portfolio_value : option float
}.
End AlternativeDataPullPayload.

Module DecisionMakingPayload.
Record t : Type := {
  sender : string;
  event : string;
  adjustment_balances : option string
}.
End DecisionMakingPayload.

Module TxPreparationPayload.
Record t : Type := {
  sender : string;
  tx_submitter : string;
  tx_hash : option string
}.
End TxPreparationPayload.

#[export] Instance ApiSelectionPayload_cls : BaseTxPayload ApiSelectionPayload.t := {|
  sender := ApiSelectionPayload.sender;
  values := fun p => [SStr (ApiSelectionPayload.api_selection p)]
|}.

#[export] Instance DataPullPayload_cls : BaseTxPayload DataPullPayload.t := {|
  sender := DataPullPayload.sender;
  values := fun p =>
    [of_optional_str (DataPullPayload.token_values p);
     of_optional_float (DataPullPayload.total_portfolio_value p)]
|}.

#[export] Instance AlternativeDataPullPayload_cls :
  BaseTxPayload AlternativeDataPullPayload.t := {|
  sender := AlternativeDataPullPayload.sender;
  values := fun p =>
    [of_optional_str (AlternativeDataPullPayload.token_values p);
     of_optional_float (AlternativeDataPullPayload.total_portfolio_value p)]
|}.

#[export] Instance DecisionMakingPayload_cls : BaseTxPayload DecisionMakingPayload.t := {|
  sender := DecisionMakingPayload.sender;
  values := fun p =>
    [SStr (DecisionMakingPayload.event p);
     of_optional_str (DecisionMakingPayload.adjustment_balances p)]
|}.

#[export] Instance TxPreparationPayload_cls : BaseTxPayload TxPreparationPayload.t := {|
  sender := TxPreparationPayload.sender;
  values := fun p =>
    [SStr (TxPreparationPayload.tx_submitter p);
     of_optional_str (TxPreparationPayload.tx_hash p)]
|}.

(** *** SynchronizedData *)

(** A value of the replicated store: a scalar, or the serialized
    agent-to-payload collection of a round. *)
Inductive DbVal : Type :=
| VScalar (s : Scalar)
| VCollection (c : list (string * list Scalar)).

Definition DbVal_eqb (a b : DbVal) : bool :=
  match a, b with
  | VScalar x, VScalar y => Scalar_eqb x y
  | VCollection c, VCollection d =>
      list_eqb (fun p q => String.eqb p.1 q.1 && list_eqb Scalar_eqb p.2 q.2) c d
  | _, _ => false
  end.

Module SynchronizedData.

(** The store, with the round bookkeeping the rounds read
    ([nb_participants]). *)
Record t : Type := {
  db : gmap string DbVal;
  nb_participants : nat
}.

(** [self.db.get(key, default)] *)
Definition db_get (sd : t) (key : string) (dflt : DbVal) : DbVal :=
  default dflt (db sd !! key).

Definition token_values (sd : t) : DbVal :=
  db_get sd "token_values" (VScalar SNone).

Definition total_portfolio_value (sd : t) : DbVal :=
  db_get sd "total_portfolio_value" (VScalar SNone).

Definition adjustment_balances (sd : t) : DbVal :=
  db_get sd "adjustment_balances" (VScalar SNone).

Definition api_selection (sd : t) : DbVal :=
  db_get sd "api_selection" (VScalar (SStr "coingecko")).

Definition most_voted_tx_hash (sd : t) : DbVal :=
  db_get sd "most_voted_tx_hash" (VScalar SNone).

(** Modelled from the spec: [BaseSynchronizedData.update] of the
    framework, which is not among the sources. The store is
    append-only and key-addressed; an update yields the prior state
    extended with the given keys, the latest value of a key being the
    one read. *)
Definition update (kwargs : list (string * DbVal)) (sd : t) : t :=
  {| db := foldl (fun m kv => <[kv.1 := kv.2]> m) (db sd) kwargs;
     nb_participants := nb_participants sd |}.

End SynchronizedData.

(** *** The threshold collector *)

Section Collector.
Context {P : Type} `{BaseTxPayload P}.

(** Modelled from the spec: the quorum size of the framework, strictly
    more than two-thirds of the participants. *)
Definition consensus_threshold (n : nat) : nat := 2 * n / 3 + 1.

(** Modelled from the spec: the cardinality of the payload-equality
    class of [v] in the collection, equality being by value. *)
Definition votes (coll : list P) (v : list Scalar) : nat :=
  length (List.filter (fun p => list_eqb Scalar_eqb (values p) v) coll).

(** Modelled from the spec: the most frequent payload-equality class
    and its cardinality (the first one met, among equals). *)
Fixpoint most_common_in (all coll : list P) : option (list Scalar * nat) :=
  match coll with
  | [] => None
  | p :: r =>
      let c := votes all (values p) in
      match most_common_in all r with
      | Some (v, c') => if c' <=? c then Some (values p, c) else Some (v, c')
      | None => Some (values p, c)
      end
  end.

Definition most_common (coll : list P) : option (list Scalar * nat) :=
  most_common_in coll coll.

(** Modelled from the spec: [threshold_reached] of the framework's
    CollectSameUntilThresholdRound. *)
Definition collector_threshold_reached (n : nat) (coll : list P) : bool :=
  match most_common coll with
  | Some (_, c) => (consensus_threshold n <=? c)%nat
  | None => false
  end.

(** Modelled from the spec: [most_voted_payload_values], the values
    of the class attaining quorum. *)
Definition collector_most_voted_payload_values (coll : list P) : list Scalar :=
  match most_common coll with
  | Some (v, _) => v
  | None => []
  end.

(** Modelled from the spec: [is_majority_possible], false once the
    largest class plus the agents still to vote cannot reach quorum. *)
Definition collector_is_majority_possible (coll : list P) (n : nat) : bool :=
  let largest := match most_common coll with Some (_, c) => c | None => 0 end in
  (consensus_threshold n <=? (n - length coll) + largest)%nat.

(** The raw agent-to-payload map, as stored under a collection key. *)
Definition serialized_collection (coll : list P) : list (string * list Scalar) :=
  (fun p => (sender p, values p)) <$> coll.

End Collector.

(** [most_voted_payload]: the first of the most voted values. *)
Definition first_value (vs : list Scalar) : Scalar :=
  match vs with v :: _ => v | [] => SNone end.

(** What a round object sees of itself through the framework's base
    class: its synchronized data, the payloads collected so far, and the
    collector's properties. *)
Record RoundState (P : Type) : Type := {
  synchronized_data : SynchronizedData.t;
  collection : list P;
  threshold_reached : bool;
  most_voted_payload_values : list Scalar;
  is_majority_possible : list P -> nat -> bool
}.
Arguments synchronized_data {P} _.
Arguments collection {P} _.
Arguments threshold_reached {P} _.
Arguments most_voted_payload_values {P} _.
Arguments is_majority_possible {P} _ _ _.

Definition most_voted_payload {P} (self : RoundState P) : Scalar :=
  first_value (most_voted_payload_values self).

(** The round object over a given collection, with the collector of
    the framework. *)
Definition round_state {P} `{BaseTxPayload P}
    (sd : SynchronizedData.t) (coll : list P) : RoundState P :=
  {| synchronized_data := sd;
     collection := coll;
     threshold_reached :=
       collector_threshold_reached (SynchronizedData.nb_participants sd) coll;
     most_voted_payload_values := collector_most_voted_payload_values coll;
     is_majority_possible := collector_is_majority_possible |}.

(** *** The rounds *)

(** ApiSelectionRound.end_block *)
Definition ApiSelectionRound_end_block (self : RoundState ApiSelectionPayload.t)
    : option (SynchronizedData.t * Event) :=
  if threshold_reached self then
    if negb (DbVal_eqb (SynchronizedData.api_selection (synchronized_data self))
               (VScalar (most_voted_payload self)))
    then
      let updated_synchronized_data :=
        SynchronizedData.update
          [("api_selection", VScalar (most_voted_payload self))]
          (synchronized_data self) in
      Some (updated_synchronized_data, COINMARKETCAP)
    else Some (synchronized_data self, COINGECKO)
  else None.

(** The class attributes of a round that keeps the base [end_block]. *)
Record RoundClass : Type := {
  done_event : Event;
  no_majority_event : Event;
  collection_key : string;
  selection_key : list string
}.

Definition AlternativeDataPullRound_cls : RoundClass :=
  {| done_event := DONE;
     no_majority_event := NO_MAJORITY;
     collection_key := "participant_to_data_round";
     selection_key := ["token_values"; "total_portfolio_value"] |}.

Definition DataPullRound_cls : RoundClass :=
  {| done_event := DONE;
     no_majority_event := NO_MAJORITY;
     collection_key := "participant_to_data_round";
     selection_key := ["token_values"; "total_portfolio_value"] |}.

Definition TxPreparationRound_cls : RoundClass :=
  {| done_event := DONE;
     no_majority_event := NO_MAJORITY;
     collection_key := "participant_to_tx_round";
     selection_key := ["tx_submitter"; "most_voted_tx_hash"] |}.

(** Modelled from the spec: [CollectSameUntilThresholdRound.end_block]
    of the framework, which is not among the sources. Once quorum is
    reached the prior state is extended with the selection keys, each
    bound to the field of the winning payload in the same position, and
    with the collection under the collection key, and the done event is
    emitted; once a majority is impossible the state is returned with
    the no-majority event; otherwise there is no result yet. *)
Definition CollectSameUntilThresholdRound_end_block {P} `{BaseTxPayload P}
    (cls : RoundClass) (self : RoundState P)
    : option (SynchronizedData.t * Event) :=
  if threshold_reached self then
    let data :=
      (zip (selection_key cls) (VScalar <$> most_voted_payload_values self)
       ++ [(collection_key cls,
            VCollection (serialized_collection (collection self)))])%list in
    Some (SynchronizedData.update data (synchronized_data self), done_event cls)
  else if negb (is_majority_possible self (collection self)
                  (SynchronizedData.nb_participants (synchronized_data self)))
  then Some (synchronized_data self, no_majority_event cls)
  else None.

Definition AlternativeDataPullRound_end_block
    (self : RoundState AlternativeDataPullPayload.t) :=
  CollectSameUntilThresholdRound_end_block AlternativeDataPullRound_cls self.

Definition DataPullRound_end_block (self : RoundState DataPullPayload.t) :=
  CollectSameUntilThresholdRound_end_block DataPullRound_cls self.

Definition TxPreparationRound_end_block (self : RoundState TxPreparationPayload.t) :=
  CollectSameUntilThresholdRound_end_block TxPreparationRound_cls self.

(** DecisionMakingRound.end_block *)
Definition DecisionMakingRound_end_block (self : RoundState DecisionMakingPayload.t)
    : option (SynchronizedData.t * Event) :=
  if threshold_reached self then
    let most_voted_payload_data :=
      List.find
        (fun payload =>
           Scalar_eqb (SStr (DecisionMakingPayload.event payload))
             (most_voted_payload self))
        (collection self) in
    match most_voted_payload_data with
    | None => Some (synchronized_data self, ERROR)
    | Some payload =>
        match DecisionMakingPayload.adjustment_balances payload with
        | Some adjustment_balances =>
            let new_synchronized_data :=
              SynchronizedData.update
                [("adjustment_balances", VScalar (SStr adjustment_balances))]
                (synchronized_data self) in
            Some (new_synchronized_data, TRANSACT)
        | None => Some (synchronized_data self, DONE)
        end
    end
  else if negb (is_majority_possible self (collection self)
                  (SynchronizedData.nb_participants (synchronized_data self)))
  then Some (synchronized_data self, NO_MAJORITY)
  else None.

(** The round classes of the application. *)
Inductive AppState : Type :=
| ApiSelectionRound
| DataPullRound
| AlternativeDataPullRound
| DecisionMakingRound
| TxPreparationRound
| FinishedDecisionMakingRound
| FinishedTxPreparationRound.

#[export] Instance AppState_eq_dec : EqDecision AppState.
Proof. solve_decision. Defined.

(** LearningAbciApp.transition_function: a dict of dicts. *)
Definition transition_function (r : AppState) : list (Event * AppState) :=
  match r with
  | ApiSelectionRound =>
      [ (NO_MAJORITY, ApiSelectionRound);
        (ROUND_TIMEOUT, ApiSelectionRound);
        (COINGECKO, DataPullRound);
        (COINMARKETCAP, AlternativeDataPullRound) ]
  | DataPullRound =>
      [ (NO_MAJORITY, DataPullRound);
        (ROUND_TIMEOUT, DataPullRound);
        (DONE, DecisionMakingRound) ]
  | AlternativeDataPullRound =>
      [ (NO_MAJORITY, AlternativeDataPullRound);
        (ROUND_TIMEOUT, AlternativeDataPullRound);
        (DONE, DecisionMakingRound) ]
  | DecisionMakingRound =>
      [ (NO_MAJORITY, DecisionMakingRound);
        (ROUND_TIMEOUT, DecisionMakingRound);
        (DONE, FinishedDecisionMakingRound);
        (ERROR, FinishedDecisionMakingRound);
        (TRANSACT, TxPreparationRound) ]
  | TxPreparationRound =>
      [ (NO_MAJORITY, TxPreparationRound);
        (ROUND_TIMEOUT, TxPreparationRound);
        (DONE, FinishedTxPreparationRound) ]
  | FinishedDecisionMakingRound => []
  | FinishedTxPreparationRound => []
  end.

(** [transition_function[r][e]], when the entry exists. *)
Definition next_round (r : AppState) (e : Event) : option AppState :=
  snd <$> List.find (fun p => bool_decide (fst p = e)) (transition_function r).

Definition initial_round_cls : AppState := ApiSelectionRound.

Definition final_states : list AppState :=
  [FinishedDecisionMakingRound; FinishedTxPreparationRound].

(** LearningAbciApp.db_pre_conditions and db_post_conditions: the keys
    required before, and guaranteed after, the rounds they list. *)
Definition db_pre_conditions (r : AppState) : option (gset string) :=
  match r with
  | ApiSelectionRound => Some ∅
  | _ => None
  end.

Definition db_post_conditions (r : AppState) : option (gset string) :=
  match r with
  | FinishedDecisionMakingRound => Some ∅
  | FinishedTxPreparationRound => Some {["most_voted_tx_hash"]}
  | _ => None
  end.

(** The collection of the active round; a round only accepts payloads
    of its own payload class. *)
Inductive Collection : Type :=
| ApiSelectionPayloads (c : list ApiSelectionPayload.t)
| DataPullPayloads (c : list DataPullPayload.t)
| AlternativeDataPullPayloads (c : list AlternativeDataPullPayload.t)
| DecisionMakingPayloads (c : list DecisionMakingPayload.t)
| TxPreparationPayloads (c : list TxPreparationPayload.t).

(** [end_block] of the active round over its collection. The finished
    rounds are degenerate: they never produce a result. *)
Definition end_block (r : AppState) (sd : SynchronizedData.t) (c : Collection)
    : option (SynchronizedData.t * Event) :=
  match r, c with
  | ApiSelectionRound, ApiSelectionPayloads c =>
      ApiSelectionRound_end_block (round_state sd c)
  | DataPullRound, DataPullPayloads c =>
      DataPullRound_end_block (round_state sd c)
  | AlternativeDataPullRound, AlternativeDataPullPayloads c =>
      AlternativeDataPullRound_end_block (round_state sd c)
  | DecisionMakingRound, DecisionMakingPayloads c =>
      DecisionMakingRound_end_block (round_state sd c)
  | TxPreparationRound, TxPreparationPayloads c =>
      TxPreparationRound_end_block (round_state sd c)
  | _, _ => None
  end.

Section Engine.
(** The collections the replication transport can finalize. *)
Variable admissible : Collection -> Prop.

(** Modelled from the spec: the workflow engine of the framework. One
    round is active at a time; a completed [end_block] applies one
    transition of the table and hands the new synchronized data to the
    next round; a round timeout applies the ROUND_TIMEOUT entry and
    leaves the data as it is. *)
Inductive step :
  AppState * SynchronizedData.t -> AppState * SynchronizedData.t -> Prop :=
| step_end_block r sd c sd' ev r' :
    admissible c ->
    end_block r sd c = Some (sd', ev) ->
    next_round r ev = Some r' ->
    step (r, sd) (r', sd')
| step_timeout r sd r' :
    next_round r ROUND_TIMEOUT = Some r' ->
    step (r, sd) (r', sd).

(** The states of a run that starts in the initial round over [sd0]. *)
Definition reachable (sd0 : SynchronizedData.t)
    (st : AppState * SynchronizedData.t) : Prop :=
  rtc step (initial_round_cls, sd0) st.
End Engine.

(** The transition table as the specification prints it: one row per
    round, columns DONE, NO_MAJORITY, ROUND_TIMEOUT and the named
    branch events; a dash is no entry. *)
Definition spec_table (r : AppState) (e : Event) : option AppState :=
  match r, e with
  | ApiSelectionRound, NO_MAJORITY => Some ApiSelectionRound
  | ApiSelectionRound, ROUND_TIMEOUT => Some ApiSelectionRound
  | ApiSelectionRound, COINGECKO => Some DataPullRound
  | ApiSelectionRound, COINMARKETCAP => Some AlternativeDataPullRound
  | DataPullRound, DONE => Some DecisionMakingRound
  | DataPullRound, NO_MAJORITY => Some DataPullRound
  | DataPullRound, ROUND_TIMEOUT => Some DataPullRound
  | AlternativeDataPullRound, DONE => Some DecisionMakingRound
  | AlternativeDataPullRound, NO_MAJORITY => Some AlternativeDataPullRound
  | AlternativeDataPullRound, ROUND_TIMEOUT => Some AlternativeDataPullRound
  | DecisionMakingRound, DONE => Some FinishedDecisionMakingRound
  | DecisionMakingRound, NO_MAJORITY => Some DecisionMakingRound
  | DecisionMakingRound, ROUND_TIMEOUT => Some DecisionMakingRound
  | DecisionMakingRound, ERROR => Some FinishedDecisionMakingRound
  | DecisionMakingRound, TRANSACT => Some TxPreparationRound
  | TxPreparationRound, DONE => Some FinishedTxPreparationRound
  | TxPreparationRound, NO_MAJORITY => Some TxPreparationRound
  | TxPreparationRound, ROUND_TIMEOUT => Some TxPreparationRound
  | _, _ => None
  end.

End Rounds.

(** ** models.py *)

Module Models.
Import Py.

Module Params.

(** The parameters of the skill that the modelled code reads. *)
Record t : Type := {
  api_selection_string : string;
  tokens_to_rebalance : list string;
  target_percentages : list float;
  variation_threshold : float;
  portfolio_address_string : string;
  safe_address : string
}.

(** Params.validate_params *)
Definition validate_params (self : t) : Res unit :=
  if negb (length (tokens_to_rebalance self) =? length (target_percentages self))%nat
  then Raise (ValueError
                "The number of tokens must match the number of target percentages.")
  else if negb (Py.sum (target_percentages self) =? 100)%float
  then Raise (ValueError "Target percentages must sum to 100.")
  else if negb ((0 <=? variation_threshold self)%float
                && (variation_threshold self <=? 100)%float)
  then Raise (ValueError "Variation threshold must be between 0 and 100.")
  else Return tt.

End Params.

End Models.

(** ** behaviours.py *)

Module Behaviours.
Import Py Rounds Models.

(** One entry of the rebalancing report. *)
Record ReportEntry : Type := {
  token : string;
  current_number_of_tokens : float;
  current_usd_value : float;
  current_percentage_in_portfolio : float;
  target_percentage : float;
  usd_deviation_from_target : float
}.

(** What a behaviour reaches through [self.context] and [self.params],
    and the answers of the external collaborators:
    - [coingecko_usd ids]: the ["usd"] entry of the parsed CoinGecko
      response for the [ids] parameter, if any;
    - [coinmarketcap_usd symbol]: the USD quote price of the parsed
      CoinMarketCap response for [symbol], if any;
    - [getBalance token]: the ["balance"] entry of the contract answer,
      [None] when the call fails or carries no balance;
    - [send_to_ipfs]: the content identifier, if the store succeeds;
    - [json_loads]: the parsed document, for the documents the data
      rounds store (a JSON object of numbers); [None] stands for a
      JSONDecodeError; a document of another shape is not modelled;
    - [json_dumps]: serialization with sorted keys. *)
Record Context : Type := {
  agent_address : string;
  params : Params.t;
  coingecko_usd : string -> option float;
  coinmarketcap_usd : string -> option float;
  getBalance : string -> option float;
  send_to_ipfs : list ReportEntry -> option string;
  json_loads : string -> option (PyDict.t float);
  json_dumps : PyDict.t float -> string
}.

(** ApiSelectionBehaviour.async_act: the payload it submits. *)
Definition ApiSelectionBehaviour_async_act (ctx : Context) : ApiSelectionPayload.t :=
  let sender := agent_address ctx in
  let selection := Params.api_selection_string (params ctx) in
  let api_selection :=
    if String.eqb selection "coinmarketcap" then selection else "coingecko" in
  {| ApiSelectionPayload.sender := sender;
     ApiSelectionPayload.api_selection := api_selection |}.

(** DataPullBehaviour.get_token_price_specs *)
Definition DataPullBehaviour_get_token_price_specs (ctx : Context) (symbol : string)
    : option float :=
  if String.eqb symbol "ETH" then coingecko_usd ctx "ethereum"
  else if String.eqb symbol "USDC" then coingecko_usd ctx "usd-coin"
  else None.

(** AlternativeDataPullBehaviour.get_token_price_specs *)
Definition AlternativeDataPullBehaviour_get_token_price_specs
    (ctx : Context) (symbol : string) : option float :=
  coinmarketcap_usd ctx symbol.

(** DecisionMakingBehaviour.get_token_price_specs *)
Definition DecisionMakingBehaviour_get_token_price_specs
    (ctx : Context) (symbol : string) : option float :=
  coinmarketcap_usd ctx symbol.

(** get_token_balances (the same in both data-pull behaviours) *)
Definition get_token_balances (ctx : Context) : option (PyDict.t (option float)) :=
  let balances :=
    foldl (fun balances token_symbol =>
             PyDict.setitem balances token_symbol (getBalance ctx token_symbol))
          PyDict.empty (Params.tokens_to_rebalance (params ctx)) in
  if PyDict.truthy balances then Some balances else None.

Section DataPull.
(** The price lookup of the behaviour class at hand. *)
Variable get_token_price_specs : Context -> string -> option float.
Variable ctx : Context.

(** generate_and_store_report *)
Definition generate_and_store_report
    (token_values : PyDict.t float) (total_portfolio_value : float)
    : Res (option string) :=
  tokens ← mapM (fun '(token, usd_value) =>
    idx ← Py.index (Params.tokens_to_rebalance (params ctx)) token;
    target_percentage ← Py.getitem (Params.target_percentages (params ctx)) idx;
    q ← Py.truediv usd_value total_portfolio_value;
    let current_percentage := (q * 100)%float in
    current_token_amount ←
      match get_token_price_specs ctx token with
      | Some token_price =>
          if (token_price =? 0)%float then Return 0%float
          else Py.truediv usd_value token_price
      | None => Return 0%float
      end;
    Return {| token := token;
              current_number_of_tokens := current_token_amount;
              current_usd_value := usd_value;
              current_percentage_in_portfolio := current_percentage;
              target_percentage := target_percentage;
              usd_deviation_from_target :=
                (current_percentage - target_percentage)%float |})
    (PyDict.items token_values);
  Return (send_to_ipfs ctx tokens).

(** The valuation loop of calculate_portfolio_allocation. *)
Fixpoint allocation_loop (items : list (string * option float))
    (token_values : PyDict.t float) (total_portfolio_value : float)
    : PyDict.t float * float :=
  match items with
  | [] => (token_values, total_portfolio_value)
  | (token_symbol, None) :: rest =>
      allocation_loop rest token_values total_portfolio_value
  | (token_symbol, Some balance) :: rest =>
      match get_token_price_specs ctx token_symbol with
      | None => allocation_loop rest token_values total_portfolio_value
      | Some price =>
          let token_value := (balance * price)%float in
          allocation_loop rest
            (PyDict.setitem token_values token_symbol token_value)
            (total_portfolio_value + token_value)%float
      end
  end.

(** calculate_portfolio_allocation *)
Definition calculate_portfolio_allocation
    : Res (option (PyDict.t float * float)) :=
  match get_token_balances ctx with
  | None => Return None
  | Some token_balances =>
      let '(token_values, total_portfolio_value) :=
        allocation_loop (PyDict.items token_balances) PyDict.empty 0%float in
      if (total_portfolio_value =? 0)%float then Return None
      else
        _ ← mapM (fun '(token_symbol, token_value) =>
                    q ← Py.truediv token_value total_portfolio_value;
                    Return (q * 100)%float)
                 (PyDict.items token_values);
        _ ← generate_and_store_report token_values total_portfolio_value;
        Return (Some (token_values, total_portfolio_value))
  end.
End DataPull.

Definition DataPullBehaviour_calculate_portfolio_allocation :=
  calculate_portfolio_allocation DataPullBehaviour_get_token_price_specs.

Definition AlternativeDataPullBehaviour_calculate_portfolio_allocation :=
  calculate_portfolio_allocation AlternativeDataPullBehaviour_get_token_price_specs.

(** DataPullBehaviour.async_act: the payload it submits. Unpacking the
    result of calculate_portfolio_allocation raises a TypeError when the
    result is None. *)
Definition DataPullBehaviour_async_act (ctx : Context) : Res DataPullPayload.t :=
  let sender := agent_address ctx in
  allocation ← DataPullBehaviour_calculate_portfolio_allocation ctx;
  match allocation with
  | None => Raise TypeError
  | Some (token_values, total_portfolio_value) =>
      let token_values_json :=
        if PyDict.truthy token_values then Some (json_dumps ctx token_values)
        else None in
      Return {| DataPullPayload.sender := sender;
                DataPullPayload.token_values := token_values_json;
                DataPullPayload.total_portfolio_value := Some total_portfolio_value |}
  end.

(** AlternativeDataPullBehaviour.async_act: the payload it submits. *)
Definition AlternativeDataPullBehaviour_async_act (ctx : Context)
    : Res AlternativeDataPullPayload.t :=
  let sender := agent_address ctx in
  allocation ← AlternativeDataPullBehaviour_calculate_portfolio_allocation ctx;
  match allocation with
  | None => Raise TypeError
  | Some (token_values, total_portfolio_value) =>
      let token_values_json :=
        if PyDict.truthy token_values then Some (json_dumps ctx token_values)
        else None in
      Return {| AlternativeDataPullPayload.sender := sender;
                AlternativeDataPullPayload.token_values := token_values_json;
                AlternativeDataPullPayload.total_portfolio_value :=
                  Some total_portfolio_value |}
  end.

Section DecisionMaking.
Variable ctx : Context.
Variable synchronized_data : SynchronizedData.t.

(** One iteration of the loop of calculate_rebalancing_actions. *)
Definition rebalancing_step (token_values : PyDict.t float)
    (total_portfolio_value : float) (new_token_amounts : PyDict.t float)
    (it : nat * string) : Res (PyDict.t float) :=
  let '(i, token) := it in
  let current_value := default 0%float (PyDict.get token_values token) in
  target_percentage ← Py.getitem (Params.target_percentages (params ctx)) i;
  match DecisionMakingBehaviour_get_token_price_specs ctx token with
  | None => Return new_token_amounts
  | Some token_price =>
      current_token_amount ← Py.truediv current_value token_price;
      q ← Py.truediv current_value total_portfolio_value;
      let current_percentage := (q * 100)%float in
      q ← Py.truediv target_percentage 100;
      let target_value := (q * total_portfolio_value)%float in
      target_token_amount ← Py.truediv target_value token_price;
      q ← Py.truediv (current_value - target_value)%float target_value;
      let deviation := (q * 100)%float in
      if (Params.variation_threshold (params ctx) <? abs deviation)%float
      then Return (PyDict.setitem new_token_amounts token target_token_amount)
      else Return new_token_amounts
  end.

Fixpoint rebalancing_loop (token_values : PyDict.t float)
    (total_portfolio_value : float) (its : list (nat * string))
    (new_token_amounts : PyDict.t float) : Res (PyDict.t float) :=
  match its with
  | [] => Return new_token_amounts
  | it :: rest =>
      new_token_amounts ←
        rebalancing_step token_values total_portfolio_value new_token_amounts it;
      rebalancing_loop token_values total_portfolio_value rest new_token_amounts
  end.

(** calculate_rebalancing_actions *)
Definition calculate_rebalancing_actions : Res (option (PyDict.t float)) :=
  token_values ←
    match SynchronizedData.token_values synchronized_data with
    | VScalar SNone => Return PyDict.empty
    | VScalar (SStr token_values_json) =>
        Return (default PyDict.empty (json_loads ctx token_values_json))
    | _ => Raise TypeError
    end;
  match SynchronizedData.total_portfolio_value synchronized_data with
  | VScalar SNone => Return None
  | VScalar (SFloat total_portfolio_value) =>
      if (total_portfolio_value <=? 0)%float then Return None
      else
        Some <$> rebalancing_loop token_values total_portfolio_value
                   (Py.enumerate (Params.tokens_to_rebalance (params ctx)))
                   PyDict.empty
  | _ => Raise TypeError
  end.

(** get_next_event *)
Definition get_next_event : Res (string * option string) :=
  rebalancing_actions ← calculate_rebalancing_actions;
  match rebalancing_actions with
  | None => Return (Event_value DONE, None)
  | Some rebalancing_actions =>
      let rebalancing_actions_json :=
        if PyDict.truthy rebalancing_actions
        then Some (json_dumps ctx rebalancing_actions)
        else None in
      Return (Event_value TRANSACT, rebalancing_actions_json)
  end.

(** DecisionMakingBehaviour.async_act: the payload it submits. *)
Definition DecisionMakingBehaviour_async_act : Res DecisionMakingPayload.t :=
  '(event, adjustment_balances) ← get_next_event;
  Return {| DecisionMakingPayload.sender := agent_address ctx;
            DecisionMakingPayload.event := event;
            DecisionMakingPayload.adjustment_balances := adjustment_balances |}.
End DecisionMaking.

End Behaviours.

(** ** The rebalancing rule as the specification words it *)

Module Spec.

(** [target_value = target_pct / 100 * total_value] *)
Definition target_value (target_pct total_value : float) : float :=
  (target_pct / 100 * total_value)%float.

(** [deviation_pct = (current_value - target_value) / target_value * 100] *)
Definition deviation_pct (current_value target_value : float) : float :=
  ((current_value - target_value) / target_value * 100)%float.

(** The action for one token: [target_value / price] when the absolute
    deviation exceeds the threshold, none otherwise. *)
Definition action (threshold current_value target_pct total_value price : float)
    : option float :=
  let target_value := target_value target_pct total_value in
  if (threshold <? abs (deviation_pct current_value target_value))%float
  then Some (target_value / price)%float
  else None.

(** The divisors met while token [t] with target percentage [p] is
    processed are not zero: its price (if it has one) and its target
    value. *)
Definition divisible (ctx : Behaviours.Context) (total_value : float)
    (t : string) (p : float) : Prop :=
  forall price, Behaviours.coinmarketcap_usd ctx t = Some price ->
    (price =? 0)%float = false /\ (target_value p total_value =? 0)%float = false.

(** The adjustment map once token [t] has been looked at. *)
Definition recorded (ctx : Behaviours.Context) (token_values : PyDict.t float)
    (total_value : float) (new_token_amounts : PyDict.t float)
    (t : string) (p : float) : PyDict.t float :=
  match
    Behaviours.coinmarketcap_usd ctx t
    ≫= action (Models.Params.variation_threshold (Behaviours.params ctx))
         (default 0%float (PyDict.get token_values t)) p total_value
  with
  | Some amount => PyDict.setitem new_token_amounts t amount
  | None => new_token_amounts
  end.

(** The USD values the decision reads from the store: the parsed
    token_values document, and no value at all when the key is unset or
    its text does not parse. *)
Definition current_values (ctx : Behaviours.Context)
    (sd : Rounds.SynchronizedData.t) : PyDict.t float :=
  match Rounds.SynchronizedData.token_values sd with
  | Rounds.VScalar (Rounds.SStr token_values_json) =>
      default PyDict.empty (Behaviours.json_loads ctx token_values_json)
  | _ => PyDict.empty
  end.

(** Every tracked token has a target percentage, and meets no zero
    divisor. *)
Definition ready (ctx : Behaviours.Context) (total_value : float) : Prop :=
  forall i t,
    Models.Params.tokens_to_rebalance (Behaviours.params ctx) !! i = Some t ->
    exists p,
      Models.Params.target_percentages (Behaviours.params ctx) !! i = Some p
      /\ divisible ctx total_value t p.

(** The collections of ApiSelectionRound made of payloads that
    ApiSelectionBehaviour submits. *)
Definition from_ApiSelectionBehaviour (c : Rounds.Collection) : Prop :=
  match c with
  | Rounds.ApiSelectionPayloads payloads =>
      Forall (fun p => exists ctx, p = Behaviours.ApiSelectionBehaviour_async_act ctx)
        payloads
  | _ => True
  end.

(** The two API names. *)
Definition known_api (v : Rounds.DbVal) : Prop :=
  v = Rounds.VScalar (Rounds.SStr "coingecko")
  \/ v = Rounds.VScalar (Rounds.SStr "coinmarketcap").

(** The keys of the store a round writes. *)
Definition written_keys (r : Rounds.AppState) : list string :=
  match r with
  | Rounds.ApiSelectionRound => ["api_selection"]
  | Rounds.DataPullRound =>
      ["token_values"; "total_portfolio_value"; "participant_to_data_round"]
  | Rounds.AlternativeDataPullRound =>
      ["token_values"; "total_portfolio_value"; "participant_to_data_round"]
  | Rounds.DecisionMakingRound => ["adjustment_balances"]
  | Rounds.TxPreparationRound =>
      ["tx_submitter"; "most_voted_tx_hash"; "participant_to_tx_round"]
  | Rounds.FinishedDecisionMakingRound => []
  | Rounds.FinishedTxPreparationRound => []
  end.

(** How far a round is from the end of the workflow. *)
Definition progress_rank (r : Rounds.AppState) : nat :=
  match r with
  | Rounds.ApiSelectionRound => 4
  | Rounds.DataPullRound => 3
  | Rounds.AlternativeDataPullRound => 3
  | Rounds.DecisionMakingRound => 2
  | Rounds.TxPreparationRound => 1
  | Rounds.FinishedDecisionMakingRound => 0
  | Rounds.FinishedTxPreparationRound => 0
  end.

(** The same round object over other synchronized data. *)
Definition over {P : Type} (self : Rounds.RoundState P)
    (sd : Rounds.SynchronizedData.t) : Rounds.RoundState P :=
  {| Rounds.synchronized_data := sd;
     Rounds.collection := Rounds.collection self;
     Rounds.threshold_reached := Rounds.threshold_reached self;
     Rounds.most_voted_payload_values := Rounds.most_voted_payload_values self;
     Rounds.is_majority_possible := Rounds.is_majority_possible self |}.

(** Two behaviour contexts read the same rebalancing parameters. *)
Definition same_rebalancing_params (ctx ctx' : Behaviours.Context) : Prop :=
  Models.Params.tokens_to_rebalance (Behaviours.params ctx)
  = Models.Params.tokens_to_rebalance (Behaviours.params ctx')
  /\ Models.Params.target_percentages (Behaviours.params ctx)
     = Models.Params.target_percentages (Behaviours.params ctx')
  /\ Models.Params.variation_threshold (Behaviours.params ctx)
     = Models.Params.variation_threshold (Behaviours.params ctx').

End Spec.

(** ** The scenarios the properties are evaluated on *)

Module Scenarios.
Import Py Rounds Models Behaviours.

(** JSON text: an object with the given members, values as written. *)
Definition dquote : string := String (Ascii.ascii_of_nat 34) EmptyString.

Fixpoint json_members (ms : list (string * string)) : string :=
  match ms with
  | [] => ""
  | [(k, v)] => dquote +:+ k +:+ dquote +:+ ": " +:+ v
  | (k, v) :: r => dquote +:+ k +:+ dquote +:+ ": " +:+ v +:+ ", " +:+ json_members r
  end.

Definition json_object (ms : list (string * string)) : string :=
  "{" +:+ json_members ms +:+ "}".

(** The documents of the scenarios, each with the dict it denotes. *)
Definition doc_60_40 : string := json_object [("A", "60.0"); ("B", "40.0")].
Definition doc_50_50 : string := json_object [("A", "50.0"); ("B", "50.0")].
Definition doc_25_12 : string := json_object [("A", "25.0"); ("B", "12.5")].

Definition documents : list (string * PyDict.t float) :=
  [ (doc_60_40, [("A", 60%float); ("B", 40%float)]);
    (doc_50_50, [("A", 50%float); ("B", 50%float)]);
    (doc_25_12, [("A", 25%float); ("B", 12.5%float)]) ].

Definition dict_eqb (d1 d2 : PyDict.t float) : bool :=
  list_eqb (fun a b => String.eqb a.1 b.1 && (a.2 =? b.2)%float) d1 d2.

(** The JSON codec, on the documents of the scenarios. *)
Definition decode (text : string) : option (PyDict.t float) :=
  snd <$> List.find (fun doc => String.eqb doc.1 text) documents.

Definition encode (d : PyDict.t float) : string :=
  match List.find (fun doc => dict_eqb doc.2 d) documents with
  | Some doc => doc.1
  | None => "{}"
  end.

Definition table (entries : list (string * float)) (key : string) : option float :=
  PyDict.get entries key.

Definition agents : list string := ["agent_0"; "agent_1"; "agent_2"; "agent_3"].

Definition context_of (agent : string) (api_selection : string)
    (tokens : list string) (threshold : float)
    (balances coingecko coinmarketcap : list (string * float)) : Context :=
  {| agent_address := agent;
     params :=
       {| Params.api_selection_string := api_selection;
          Params.tokens_to_rebalance := tokens;
          Params.target_percentages := [50%float; 50%float];
          Params.variation_threshold := threshold;
          Params.portfolio_address_string := "0xFA1FC163deeaE7Bded993Cf9aFd4A4B9ae6b3639";
          Params.safe_address := "0x0000000000000000000000000000000000000000" |};
     coingecko_usd := table coingecko;
     coinmarketcap_usd := table coinmarketcap;
     getBalance := table balances;
     send_to_ipfs := fun _ => Some "QmPortfolioRebalancerReport";
     json_loads := decode;
     json_dumps := encode |}.

(** Balances {A: 10, B: 0} and prices {A: 2, B: 5}, for the two tokens
    [a] and [b]; CoinGecko quotes ETH and USDC under its own ids. *)
Definition allocation_ctx (a b : string) : Context :=
  context_of "agent_0" "coingecko" [a; b] 5%float
    [(a, 10%float); (b, 0%float)]
    [("ethereum", 2%float); ("usd-coin", 5%float)]
    [(a, 2%float); (b, 5%float)].

(** Tokens [A, B] with targets [50, 50] at the given threshold. *)
Definition rebalancing_ctx (threshold : float) : Context :=
  context_of "agent_0" "coinmarketcap" ["A"; "B"] threshold
    [("A", 30%float); ("B", 10%float)]
    []
    [("A", 2%float); ("B", 4%float)].

Definition synchronized (entries : list (string * DbVal)) : SynchronizedData.t :=
  {| SynchronizedData.db := list_to_map entries;
     SynchronizedData.nb_participants := 4 |}.

(** token_values = {A: 60, B: 40}, total = 100. *)
Definition sd_60_40 : SynchronizedData.t :=
  synchronized [("token_values", VScalar (SStr doc_60_40));
                ("total_portfolio_value", VScalar (SFloat 100))].

(** token_values = {A: 50, B: 50}, total = 100: on target. *)
Definition sd_50_50 : SynchronizedData.t :=
  synchronized [("token_values", VScalar (SStr doc_50_50));
                ("total_portfolio_value", VScalar (SFloat 100))].

(** A store, built by hand, that already records CoinMarketCap. *)
Definition sd_coinmarketcap : SynchronizedData.t :=
  synchronized [("api_selection", VScalar (SStr "coinmarketcap"))].

Definition sd_initial : SynchronizedData.t := synchronized [].

(** Every agent configured with the same API name votes. *)
Definition api_votes (configured : string) : list ApiSelectionPayload.t :=
  (fun agent =>
     ApiSelectionBehaviour_async_act
       (context_of agent configured ["A"; "B"] 5%float [] [] []))
  <$> agents.

Definition data_votes : list DataPullPayload.t :=
  (fun agent =>
     {| DataPullPayload.sender := agent;
        DataPullPayload.token_values := Some doc_60_40;
        DataPullPayload.total_portfolio_value := Some 100%float |})
  <$> agents.

Definition alternative_data_votes : list AlternativeDataPullPayload.t :=
  (fun agent =>
     {| AlternativeDataPullPayload.sender := agent;
        AlternativeDataPullPayload.token_values := Some doc_60_40;
        AlternativeDataPullPayload.total_portfolio_value := Some 100%float |})
  <$> agents.

Definition decision_votes (event : Event) (adjustment : option string)
    : list DecisionMakingPayload.t :=
  (fun agent =>
     {| DecisionMakingPayload.sender := agent;
        DecisionMakingPayload.event := Event_value event;
        DecisionMakingPayload.adjustment_balances := adjustment |})
  <$> agents.

Definition tx_votes : list TxPreparationPayload.t :=
  (fun agent =>
     {| TxPreparationPayload.sender := agent;
        TxPreparationPayload.tx_submitter := "tx_preparation_behaviour";
        TxPreparationPayload.tx_hash := Some "0xabc" |})
  <$> agents.

(** The synchronized data a round hands over. *)
Definition after (r : AppState) (sd : SynchronizedData.t) (c : Collection)
    : SynchronizedData.t :=
  match end_block r sd c with
  | Some (sd', _) => sd'
  | None => sd
  end.

(** A run that prepares a transaction ... *)
Definition sd_selected : SynchronizedData.t :=
  after ApiSelectionRound sd_initial (ApiSelectionPayloads (api_votes "coingecko")).
Definition sd_pulled : SynchronizedData.t :=
  after DataPullRound sd_selected (DataPullPayloads data_votes).
Definition sd_decided : SynchronizedData.t :=
  after DecisionMakingRound sd_pulled
    (DecisionMakingPayloads (decision_votes TRANSACT (Some doc_25_12))).
Definition sd_prepared : SynchronizedData.t :=
  after TxPreparationRound sd_decided (TxPreparationPayloads tx_votes).

(** A run of agents configured with CoinMarketCap. *)
Definition sd_alternative : SynchronizedData.t :=
  after ApiSelectionRound sd_initial (ApiSelectionPayloads (api_votes "coinmarketcap")).

(** ... and one that ends without any. *)
Definition sd_undecided : SynchronizedData.t :=
  after DecisionMakingRound sd_pulled
    (DecisionMakingPayloads (decision_votes DONE None)).

(** Contexts with target percentages of their own. *)
Definition context_with_targets (tokens : list string) (targets : list float)
    (balances coinmarketcap : list (string * float)) : Context :=
  {| agent_address := "agent_0";
     params :=
       {| Params.api_selection_string := "coinmarketcap";
          Params.tokens_to_rebalance := tokens;
          Params.target_percentages := targets;
          Params.variation_threshold := 5%float;
          Params.portfolio_address_string := "0xFA1FC163deeaE7Bded993Cf9aFd4A4B9ae6b3639";
          Params.safe_address := "0x0000000000000000000000000000000000000000" |};
     coingecko_usd := table [];
     coinmarketcap_usd := table coinmarketcap;
     getBalance := table balances;
     send_to_ipfs := fun _ => None;
     json_loads := decode;
     json_dumps := encode |}.

(** Three tracked tokens, two target percentages. *)
Definition short_targets_ctx : Context :=
  context_with_targets ["A"; "B"; "C"] [50%float; 50%float]
    [("A", 10%float); ("B", 0%float); ("C", 1%float)]
    [("A", 2%float); ("B", 5%float); ("C", 3%float)].

(** Targets [100, 0]: they pass validation, and the target value of B
    is zero. *)
Definition zero_target_ctx : Context :=
  context_with_targets ["A"; "B"] [100%float; 0%float]
    [("A", 30%float); ("B", 10%float)]
    [("A", 2%float); ("B", 4%float)].

(** A round object in which quorum is reached on the given values. *)
Definition quorum_on {P : Type} (sd : SynchronizedData.t) (c : list P)
    (most_voted : list Scalar) : RoundState P :=
  {| synchronized_data := sd;
     collection := c;
     threshold_reached := true;
     most_voted_payload_values := most_voted;
     is_majority_possible := fun _ _ => true |}.

End Scenarios.

Import Py Rounds Models Behaviours.

(** Membership of a key in a list of keys given in full. *)
Ltac solve_key :=
  simpl; first [ discriminate | by apply (bool_decide_unpack _); vm_compute ].

(** An equation between two different rounds. *)
Ltac other_round := let H := fresh in intros H; discriminate H.

(** ** Dictionaries, results and lists *)

Section PyDictFacts.
Context {V : Type}.
Implicit Types (d : PyDict.t V) (k : string) (v : V).

Lemma get_setitem_eq d k v : PyDict.get (PyDict.setitem d k v) k = Some v.
Proof.
  induction d as [|[k' v'] d IH]; simpl.
  - by rewrite String.eqb_refl.
  - destruct (String.eqb k' k) eqn:E; simpl; rewrite E; [done | apply IH].
Qed.

Lemma get_setitem_ne d k k' v :
  k ≠ k' → PyDict.get (PyDict.setitem d k v) k' = PyDict.get d k'.
Proof.
  intros Hne. induction d as [|[k0 v0] d IH]; simpl.
  - destruct (String.eqb_spec k k'); [done | done].
  - destruct (String.eqb_spec k0 k) as [->|Hk]; simpl.
    + destruct (String.eqb_spec k k'); [done | done].
    + destruct (String.eqb_spec k0 k'); [done | apply IH].
Qed.

Lemma get_None_keys d k : PyDict.get d k = None ↔ k ∉ PyDict.keys d.
Proof.
  unfold PyDict.keys. induction d as [|[k0 v0] d IH]; simpl.
  - split; [intros _; apply not_elem_of_nil | done].
  - rewrite not_elem_of_cons. destruct (String.eqb_spec k0 k) as [->|Hk].
    + split; [done | intros [? _]; done].
    + rewrite IH. split; [intros ?; split; [congruence | done] | intros [_ ?]; done].
Qed.

Lemma setitem_fresh d k v :
  PyDict.get d k = None → PyDict.setitem d k v = d ++ [(k, v)].
Proof.
  induction d as [|[k0 v0] d IH]; simpl; [done |].
  destruct (String.eqb k0 k); [done |]. intros Hd. by rewrite IH.
Qed.

Lemma keys_setitem_present d k v :
  k ∈ PyDict.keys d → PyDict.keys (PyDict.setitem d k v) = PyDict.keys d.
Proof.
  unfold PyDict.keys. induction d as [|[k0 v0] d IH]; csimpl.
  - intros Hin. by apply elem_of_nil in Hin.
  - destruct (String.eqb_spec k0 k) as [->|Hk]; [done |].
    intros Hin. apply elem_of_cons in Hin as [->|Hin]; [done |].
    csimpl. by rewrite IH.
Qed.

Lemma NoDup_keys_setitem d k v :
  NoDup (PyDict.keys d) → NoDup (PyDict.keys (PyDict.setitem d k v)).
Proof.
  intros Hd. destruct (PyDict.get d k) eqn:E.
  - rewrite keys_setitem_present; [done |].
    destruct (decide (k ∈ PyDict.keys d)) as [|Hn]; [done |].
    apply get_None_keys in Hn. congruence.
  - rewrite setitem_fresh by done. unfold PyDict.keys in *.
    rewrite fmap_app. simpl. apply NoDup_app. split; [done |].
    split; [| apply NoDup_singleton].
    intros x Hx Hx'. apply list_elem_of_singleton in Hx' as ->.
    apply get_None_keys in E. done.
Qed.
End PyDictFacts.

Section ResFacts.
Context {A B : Type}.

Lemma mapM_Return (f : A → Res B) (l : list A) :
  Forall (λ x, ∃ y, f x = Return y) l → ∃ k, mapM f l = Return k.
Proof.
  induction 1 as [|x l [y Hy] _ [k Hk]]; simpl.
  - by eexists.
  - rewrite Hy. simpl. rewrite Hk. simpl. by eexists.
Qed.
End ResFacts.

Lemma index_elem_of (l : list string) (x : string) :
  x ∈ l → ∃ i, Py.index l x = Return i ∧ i < length l.
Proof.
  induction l as [|y l IH]; intros Hin.
  - by apply elem_of_nil in Hin.
  - simpl. destruct (String.eqb_spec y x) as [->|Hne].
    + exists 0. split; [done | lia].
    + apply elem_of_cons in Hin as [->|Hin]; [done |].
      destruct (IH Hin) as (i & -> & Hi). exists (S i). split; [done | lia].
Qed.

Lemma getitem_lt {A} (l : list A) (i : nat) :
  i < length l → ∃ x, Py.getitem l i = Return x.
Proof.
  intros Hi. unfold Py.getitem.
  destruct (lookup_lt_is_Some_2 l i Hi) as [x ->]. by eexists.
Qed.

Lemma truediv_nonzero (a b : float) :
  (b =? 0)%float = false → Py.truediv a b = Return (a / b)%float.
Proof. intros Hb. unfold Py.truediv. by rewrite Hb. Qed.

Section Balances.
Context {V : Type} (f : string → V).

Lemma foldl_setitem_get (l : list string) (d : PyDict.t V) (t : string) :
  PyDict.get (foldl (λ b k, PyDict.setitem b k (f k)) d l) t
  = if decide (t ∈ l) then Some (f t) else PyDict.get d t.
Proof.
  revert d. induction l as [|a l IH]; intros d; cbn [foldl].
  - destruct (decide (t ∈ [])) as [Hin|]; [by apply elem_of_nil in Hin | done].
  - rewrite IH.
    destruct (decide (t ∈ a :: l)) as [Hc|Hc]; rewrite elem_of_cons in Hc;
      destruct (decide (t ∈ l)) as [Hin|Hnin]; try done.
    + destruct Hc as [->|?]; [|done]. by rewrite get_setitem_eq.
    + by destruct Hc; right.
    + rewrite get_setitem_ne; [done |]. intros ->. by destruct Hc; left.
Qed.

Lemma foldl_setitem_NoDup (l : list string) (d : PyDict.t V) :
  NoDup (PyDict.keys d) →
  NoDup (PyDict.keys (foldl (λ b k, PyDict.setitem b k (f k)) d l)).
Proof.
  revert d. induction l as [|a l IH]; intros d Hd; simpl; [done |].
  apply IH. by apply NoDup_keys_setitem.
Qed.

Lemma foldl_setitem_truthy (l : list string) (d : PyDict.t V) :
  PyDict.truthy (foldl (λ b k, PyDict.setitem b k (f k)) d l)
  = PyDict.truthy d || bool_decide (l ≠ []).
Proof.
  revert d. induction l as [|a l IH]; intros d; simpl.
  - by rewrite orb_false_r.
  - rewrite IH. rewrite orb_true_r.
    destruct d as [|[k v] d]; simpl; [done |]. by destruct (String.eqb k a).
Qed.
End Balances.

Section Allocation.
Variable price : Context → string → option float.
Variable ctx : Context.

Lemma allocation_loop_spec (items : list (string * option float)) :
  ∀ tv total tv' total',
    NoDup (PyDict.keys items) →
    (∀ k, k ∈ PyDict.keys items → PyDict.get tv k = None) →
    allocation_loop price ctx items tv total = (tv', total') →
    (∀ t, PyDict.get tv' t =
          match PyDict.get items t with
          | Some balance => b ← balance; p ← price ctx t; Some (b * p)%float
          | None => PyDict.get tv t
          end)
    ∧ ∃ new, PyDict.values tv' = PyDict.values tv ++ new
             ∧ total' = fold_left PrimFloat.add new total.
Proof.
  induction items as [|[k balance] items IH]; intros tv total tv' total' Hnd Hfresh Hloop.
  - simpl in Hloop. injection Hloop as <- <-. split; [done |].
    exists []. by rewrite app_nil_r.
  - unfold PyDict.keys in Hnd. csimpl in Hnd. apply NoDup_cons in Hnd as [Hk Hnd].
    assert (Hrest : PyDict.get items k = None) by by apply get_None_keys.
    assert (Hskip :
      allocation_loop price ctx items tv total = (tv', total') →
      (balance ≫= λ b, price ctx k ≫= λ p, Some (b * p)%float) = None →
      (∀ t, PyDict.get tv' t =
            match PyDict.get ((k, balance) :: items) t with
            | Some balance => b ← balance; p ← price ctx t; Some (b * p)%float
            | None => PyDict.get tv t
            end)
      ∧ ∃ new, PyDict.values tv' = PyDict.values tv ++ new
               ∧ total' = fold_left PrimFloat.add new total).
    { intros Hl Hnone. destruct (IH tv total tv' total' Hnd) as [Hget Hsum]; [|done|].
      { intros k' Hk'. apply Hfresh. unfold PyDict.keys. csimpl. by apply elem_of_cons; right. }
      split; [|done]. intros t. simpl. destruct (String.eqb_spec k t) as [<-|Hne].
      - rewrite Hget, Hrest, Hnone. apply Hfresh. unfold PyDict.keys. csimpl. by apply elem_of_cons; left.
      - apply Hget. }
    simpl in Hloop. destruct balance as [b|]; [|by apply Hskip].
    destruct (price ctx k) as [p|] eqn:Hp; [|apply Hskip; [done | by simpl; rewrite ?Hp]].
    clear Hskip.
    assert (Hk0 : PyDict.get tv k = None).
    { apply Hfresh. unfold PyDict.keys. csimpl. by apply elem_of_cons; left. }
    assert (Hfresh' : ∀ k', k' ∈ PyDict.keys items →
              PyDict.get (PyDict.setitem tv k (b * p)%float) k' = None).
    { intros k' Hk'. rewrite get_setitem_ne by (intros ->; done).
      apply Hfresh. unfold PyDict.keys. csimpl. by apply elem_of_cons; right. }
    destruct (IH _ _ _ _ Hnd Hfresh' Hloop) as [Hget (new & Hvals & Htot)].
    split.
    + intros t. simpl. rewrite Hget. destruct (String.eqb_spec k t) as [<-|Hne].
      * rewrite Hrest, get_setitem_eq. simpl. by rewrite Hp.
      * destruct (PyDict.get items t); [done |]. by rewrite get_setitem_ne.
    + exists ((b * p)%float :: new). rewrite Hvals, Htot.
      rewrite setitem_fresh by done. unfold PyDict.values.
      rewrite fmap_app. csimpl. by rewrite <- app_assoc.
Qed.
End Allocation.

Section AllocationSpec.
Variable price : Context → string → option float.
Variable ctx : Context.

Lemma generate_and_store_report_returns (tv : PyDict.t float) (total : float) :
  length (Params.tokens_to_rebalance (params ctx))
    ≤ length (Params.target_percentages (params ctx)) →
  (total =? 0)%float = false →
  (∀ t, t ∈ PyDict.keys tv → t ∈ Params.tokens_to_rebalance (params ctx)) →
  ∃ h, generate_and_store_report price ctx tv total = Return h.
Proof.
  intros Hlen Htot Hkeys. unfold generate_and_store_report.
  match goal with
  | |- context [mapM ?f ?l] => destruct (mapM_Return f l) as [k ->]
  end; [|simpl; by eexists].
  apply Forall_forall. intros [t usd] Hin.
  assert (Ht : t ∈ PyDict.keys tv).
  { unfold PyDict.keys. apply list_elem_of_fmap. by exists (t, usd). }
  destruct (index_elem_of _ _ (Hkeys t Ht)) as (i & -> & Hi). simpl.
  destruct (getitem_lt (Params.target_percentages (params ctx)) i) as [pct ->]; [lia |].
  simpl. rewrite (truediv_nonzero _ _ Htot). simpl.
  destruct (price ctx t) as [p|]; [|simpl; by eexists].
  destruct (p =? 0)%float eqn:Hp; [simpl; by eexists |].
  rewrite (truediv_nonzero _ _ Hp). simpl. by eexists.
Qed.

Lemma calculate_portfolio_allocation_result :
  length (Params.tokens_to_rebalance (params ctx))
    ≤ length (Params.target_percentages (params ctx)) →
  ∃ token_values total,
    (∀ t, PyDict.get token_values t =
          if decide (t ∈ Params.tokens_to_rebalance (params ctx))
          then b ← getBalance ctx t; p ← price ctx t; Some (b * p)%float
          else None)
    ∧ total = Py.sum (PyDict.values token_values)
    ∧ calculate_portfolio_allocation price ctx
      = Return (if (total =? 0)%float then None else Some (token_values, total)).
Proof.
  intros Hlen. unfold calculate_portfolio_allocation, get_token_balances.
  set (tokens := Params.tokens_to_rebalance (params ctx)) in *.
  set (balances := foldl _ _ tokens).
  assert (Hbal : ∀ t, PyDict.get balances t
                      = if decide (t ∈ tokens) then Some (getBalance ctx t) else None).
  { intros t. unfold balances. by rewrite (foldl_setitem_get (getBalance ctx)). }
  destruct (PyDict.truthy balances) eqn:Htruthy.
  - destruct (allocation_loop price ctx (PyDict.items balances) PyDict.empty 0%float)
      as [tv total] eqn:Hloop.
    destruct (allocation_loop_spec price ctx _ _ _ _ _
                (foldl_setitem_NoDup (getBalance ctx) tokens PyDict.empty (NoDup_nil_2))
                (λ k _, eq_refl (PyDict.get (V := float) PyDict.empty k)) Hloop)
      as [Hget (new & Hvals & Htot)].
    exists tv, total. split; [|split].
    + intros t. rewrite Hget. unfold PyDict.items. rewrite Hbal.
      by destruct (decide (t ∈ tokens)).
    + simpl in Hvals. by rewrite Hvals.
    + destruct (total =? 0)%float eqn:Hz; [done |].
      match goal with
      | |- context [mapM ?f ?l] => destruct (mapM_Return f l) as [k ->]
      end.
      { apply Forall_forall. intros [t v] _. rewrite (truediv_nonzero _ _ Hz).
        simpl. by eexists. }
      simpl. edestruct generate_and_store_report_returns as [h ->]; [done | done | | done].
      intros t Ht. destruct (decide (t ∈ tokens)) as [|Hnin]; [done |].
      exfalso. revert Ht. apply get_None_keys.
      rewrite Hget. unfold PyDict.items. rewrite Hbal.
      by destruct (decide (t ∈ tokens)).
  - exists PyDict.empty, 0%float. split; [|split; reflexivity].
    intros t. unfold balances in Htruthy.
    rewrite (foldl_setitem_truthy (getBalance ctx)) in Htruthy. simpl in Htruthy.
    apply bool_decide_eq_false in Htruthy.
    destruct tokens as [|a l]; [|by destruct Htruthy].
    by destruct (decide (t ∈ [])) as [Hin|]; [apply elem_of_nil in Hin |].
Qed.
End AllocationSpec.

Lemma float_eqb_leb (x y : float) : (x =? y)%float = true → (x <=? y)%float = true.
Proof.
  rewrite FloatAxioms.eqb_spec, FloatAxioms.leb_spec. unfold SFeqb, SFleb.
  by destruct (SFcompare _ _) as [[]|].
Qed.

Lemma float_not_leb_not_eqb (x y : float) :
  (x <=? y)%float = false → (x =? y)%float = false.
Proof.
  intros Hle. destruct (x =? y)%float eqn:E; [|done].
  apply float_eqb_leb in E. congruence.
Qed.

Section Rebalancing.
Variable ctx : Context.
Variable tv : PyDict.t float.
Variable total : float.
Hypothesis Htotal : (total =? 0)%float = false.

Let targets := Params.target_percentages (params ctx).
Let thr := Params.variation_threshold (params ctx).
Let divisible := Spec.divisible ctx total.
Let recorded := Spec.recorded ctx tv total.

Lemma rebalancing_step_spec (acc : PyDict.t float) (i : nat) (t : string) (p : float) :
  targets !! i = Some p → divisible t p →
  rebalancing_step ctx tv total acc (i, t) = Return (recorded acc t p).
Proof.
  intros Hp Hdiv. unfold rebalancing_step, recorded, Spec.recorded, Py.getitem.
  fold targets. rewrite Hp. simpl.
  unfold DecisionMakingBehaviour_get_token_price_specs.
  destruct (coinmarketcap_usd ctx t) as [pr|] eqn:Hpr; [|done].
  destruct (Hdiv pr Hpr) as [Hpr0 Htv0]. unfold Spec.target_value in Htv0.
  repeat (first [ rewrite (truediv_nonzero _ _ Hpr0)
                | rewrite (truediv_nonzero _ _ Htotal)
                | rewrite (truediv_nonzero _ _ Htv0)
                | rewrite (truediv_nonzero p 100) by reflexivity ]; simpl).
  unfold Spec.action, Spec.deviation_pct, Spec.target_value. fold thr.
  by destruct (thr <? _)%float.
Qed.

Lemma get_recorded_ne (acc : PyDict.t float) (t t' : string) (p : float) :
  t ≠ t' → PyDict.get (recorded acc t p) t' = PyDict.get acc t'.
Proof.
  intros Hne. unfold recorded, Spec.recorded.
  destruct (_ ≫= _); [by apply get_setitem_ne | done].
Qed.

Lemma get_recorded_eq (acc : PyDict.t float) (t : string) (p : float) :
  PyDict.get (recorded acc t p) t =
  match coinmarketcap_usd ctx t ≫= Spec.action thr (default 0%float (PyDict.get tv t)) p total with
  | Some amount => Some amount
  | None => PyDict.get acc t
  end.
Proof. unfold recorded, Spec.recorded. destruct (_ ≫= _); [by apply get_setitem_eq | done]. Qed.

Lemma rebalancing_loop_spec (its : list (nat * string)) :
  ∀ acc,
    NoDup its.*2 →
    (∀ i t, (i, t) ∈ its → ∃ p, targets !! i = Some p ∧ divisible t p) →
    ∃ m, rebalancing_loop ctx tv total its acc = Return m
         ∧ (∀ t, t ∉ its.*2 → PyDict.get m t = PyDict.get acc t)
         ∧ (∀ i t p, (i, t) ∈ its → targets !! i = Some p →
              PyDict.get m t = PyDict.get (recorded acc t p) t).
Proof.
  induction its as [|[i t] its IH]; intros acc Hnd Hpre.
  - exists acc. split; [done |]. split; [done |].
    intros ??? Hin. by apply elem_of_nil in Hin.
  - csimpl in Hnd. apply NoDup_cons in Hnd as [Ht Hnd].
    destruct (Hpre i t) as (p & Hp & Hdiv); [by apply elem_of_cons; left |].
    cbn [rebalancing_loop]. rewrite (rebalancing_step_spec acc i t p Hp Hdiv). simpl.
    destruct (IH (recorded acc t p) Hnd) as (m & -> & Hout & Hin).
    { intros i' t' Hin'. apply Hpre. by apply elem_of_cons; right. }
    exists m. split; [done |]. split.
    + intros t' Ht'. csimpl in Ht'. apply not_elem_of_cons in Ht' as [Hne Ht'].
      rewrite (Hout t' Ht'). by apply get_recorded_ne.
    + intros i' t' p' Hin' Hp'. apply elem_of_cons in Hin' as [Heq|Hin'].
      * injection Heq as -> ->. rewrite (Hout t Ht). congruence.
      * assert (Hne : t ≠ t').
        { intros ->. apply Ht. apply list_elem_of_fmap. by exists (i', t'). }
        rewrite (Hin i' t' p' Hin' Hp').
        rewrite !get_recorded_eq. destruct (_ ≫= _); [done |].
        by apply get_recorded_ne.
Qed.
End Rebalancing.

Lemma elem_of_enumerate {A} (l : list A) (i : nat) (x : A) :
  (i, x) ∈ Py.enumerate l ↔ l !! i = Some x.
Proof.
  unfold Py.enumerate. rewrite elem_of_lookup_imap. split.
  - intros (j & y & Heq & Hj). by injection Heq as -> ->.
  - intros Hi. by exists i, x.
Qed.

Lemma enumerate_snd {A} (l : list A) : (Py.enumerate l).*2 = l.
Proof.
  unfold Py.enumerate. rewrite fmap_imap. simpl.
  rewrite <- (list_fmap_id l) at 2. apply imap_const.
Qed.

(** ** The transition table *)

(** C4. The transition function of LearningAbciApp is, entry for entry,
    the table of the specification: for every round and every event the
    dict lookup gives the round the table names, and no entry where the
    table has a dash (the self loops are exactly the NO_MAJORITY and
    ROUND_TIMEOUT columns); the two finished rounds map to the empty dict. *)
Theorem transition_function_is_spec_table :
  (forall r e, next_round r e = spec_table r e)
  /\ transition_function FinishedDecisionMakingRound = []
  /\ transition_function FinishedTxPreparationRound = [].
Proof.
  split; [|split; reflexivity].
  intros r e. destruct r, e; reflexivity.
Qed.
(** ** Portfolio valuation *)

(** C3, as the code has it. Provided the target percentages cover the
    tracked tokens, calculate_portfolio_allocation values every tracked
    token whose balance and price are both available at balance * price (a
    balance of zero is available, and valued 0), leaves the others out,
    totals the values in tracking order, and returns the pair unless the
    total is zero, when it returns None. On balances {A: 10, B: 0} and
    prices {A: 2, B: 5} the result is ({A: 20, B: 0}, 20): with CoinGecko
    prices for A = ETH and B = USDC, and with CoinMarketCap prices for the
    tokens named A and B. *)
Theorem calculate_portfolio_allocation_spec
    (price : Context → string → option float) (ctx : Context) :
  length (Params.tokens_to_rebalance (params ctx))
    ≤ length (Params.target_percentages (params ctx)) →
  (∃ token_values total,
      (∀ t, PyDict.get token_values t =
            if decide (t ∈ Params.tokens_to_rebalance (params ctx))
            then b ← getBalance ctx t; p ← price ctx t; Some (b * p)%float
            else None)
      ∧ total = Py.sum (PyDict.values token_values)
      ∧ calculate_portfolio_allocation price ctx
        = Return (if (total =? 0)%float then None else Some (token_values, total)))
  ∧ DataPullBehaviour_calculate_portfolio_allocation (Scenarios.allocation_ctx "ETH" "USDC")
    = Return (Some ([("ETH", 20%float); ("USDC", 0%float)], 20%float))
  ∧ AlternativeDataPullBehaviour_calculate_portfolio_allocation
      (Scenarios.allocation_ctx "A" "B")
    = Return (Some ([("A", 20%float); ("B", 0%float)], 20%float)).
Proof.
  intros Hlen. split; [by apply calculate_portfolio_allocation_result |].
  split; vm_compute; reflexivity.
Qed.

Lemma calculate_portfolio_allocation_spec_witness :
  ∃ token_values total,
    PyDict.get token_values "USDC" = Some 0%float
    ∧ DataPullBehaviour_calculate_portfolio_allocation (Scenarios.allocation_ctx "ETH" "USDC")
      = Return (if (total =? 0)%float then None else Some (token_values, total)).
Proof.
  destruct (calculate_portfolio_allocation_spec DataPullBehaviour_get_token_price_specs
              (Scenarios.allocation_ctx "ETH" "USDC"))
    as [(token_values & total & Hget & _ & Hres) _].
  - simpl. lia.
  - exists token_values, total. split; [|exact Hres].
    rewrite Hget. reflexivity.
Defined.

(** The result of calculate_portfolio_allocation on balances
    {ETH: 10, USDC: 0} and prices {ETH: 2, USDC: 5} keeps the token of
    zero balance, at value 0: it is not ({ETH: 20}, 20). *)
Lemma calculate_portfolio_allocation_keeps_zero_balance :
  DataPullBehaviour_calculate_portfolio_allocation (Scenarios.allocation_ctx "ETH" "USDC")
  = Return (Some ([("ETH", 20%float); ("USDC", 0%float)], 20%float))
  ∧ DataPullBehaviour_calculate_portfolio_allocation (Scenarios.allocation_ctx "ETH" "USDC")
    ≠ Return (Some ([("ETH", 20%float)], 20%float)).
Proof.
  assert (H : DataPullBehaviour_calculate_portfolio_allocation
                (Scenarios.allocation_ctx "ETH" "USDC")
              = Return (Some ([("ETH", 20%float); ("USDC", 0%float)], 20%float)))
    by (vm_compute; reflexivity).
  split; [exact H |]. rewrite H. intros Heq. discriminate Heq.
Qed.

(** ** The rebalancing decision *)

Lemma truediv_Return (a b q : float) :
  Py.truediv a b = Return q → (b =? 0)%float = false ∧ q = (a / b)%float.
Proof. unfold Py.truediv. destruct (b =? 0)%float; [done |]. by intros [= <-]. Qed.

(** An iteration that returns found a target percentage and no zero
    divisor. *)
Lemma rebalancing_step_Return_divisible (ctx : Context) (tv : PyDict.t float)
    (total : float) (acc acc' : PyDict.t float) (i : nat) (t : string) :
  rebalancing_step ctx tv total acc (i, t) = Return acc' →
  ∃ p, Params.target_percentages (params ctx) !! i = Some p
       ∧ Spec.divisible ctx total t p.
Proof.
  unfold rebalancing_step, DecisionMakingBehaviour_get_token_price_specs, Py.getitem.
  intros H.
  destruct (Params.target_percentages (params ctx) !! i) as [p|];
    cbn [mbind Res_bind] in H; [|discriminate H].
  exists p. split; [done |]. intros price Hprice. rewrite Hprice in H.
  destruct (Py.truediv _ price) as [q1|] eqn:H1; cbn [mbind Res_bind] in H;
    [|discriminate H].
  apply truediv_Return in H1 as [Hpr _].
  destruct (Py.truediv _ total) as [q2|] eqn:H2; cbn [mbind Res_bind] in H;
    [|discriminate H].
  destruct (Py.truediv p 100) as [q3|] eqn:H3; cbn [mbind Res_bind] in H;
    [|discriminate H].
  apply truediv_Return in H3 as [_ ->].
  destruct (Py.truediv _ price) as [q4|] eqn:H4; cbn [mbind Res_bind] in H;
    [|discriminate H].
  destruct (Py.truediv _ (p / 100 * total)%float) as [q5|] eqn:H5;
    cbn [mbind Res_bind] in H; [|discriminate H].
  apply truediv_Return in H5 as [Htv _]. done.
Qed.

Lemma rebalancing_loop_Return_divisible (ctx : Context) (tv : PyDict.t float)
    (total : float) (its : list (nat * string)) (acc m : PyDict.t float) :
  rebalancing_loop ctx tv total its acc = Return m →
  ∀ i t, (i, t) ∈ its →
         ∃ p, Params.target_percentages (params ctx) !! i = Some p
              ∧ Spec.divisible ctx total t p.
Proof.
  revert acc. induction its as [|[i t] its IH]; intros acc Hloop i' t' Hin.
  - by apply elem_of_nil in Hin.
  - cbn [rebalancing_loop] in Hloop.
    destruct (rebalancing_step ctx tv total acc (i, t)) as [acc'|] eqn:Hstep;
      simpl in Hloop; [|done].
    apply elem_of_cons in Hin as [Heq|Hin].
    + injection Heq as -> ->. by apply (rebalancing_step_Return_divisible _ _ _ _ _ _ _ Hstep).
    + by apply (IH acc' Hloop).
Qed.

(** On a store of the types the rounds write, with a total above zero,
    the method is the loop over the current values. *)
Lemma calculate_rebalancing_actions_loop (ctx : Context) (sd : SynchronizedData.t)
    (total : float) :
  SynchronizedData.token_values sd = VScalar SNone
  ∨ (∃ json, SynchronizedData.token_values sd = VScalar (SStr json)) →
  SynchronizedData.total_portfolio_value sd = VScalar (SFloat total) →
  (total <=? 0)%float = false →
  calculate_rebalancing_actions ctx sd
  = Some <$> rebalancing_loop ctx (Spec.current_values ctx sd) total
               (Py.enumerate (Params.tokens_to_rebalance (params ctx))) PyDict.empty.
Proof.
  intros Htv Htot Hpos. unfold calculate_rebalancing_actions, Spec.current_values.
  rewrite Htot. destruct Htv as [-> | [json ->]]; simpl; by rewrite Hpos.
Qed.




(** Every outcome of calculate_rebalancing_actions, as get_next_event
    answers it. *)
Lemma get_next_event_cases (ctx : Context) (sd : SynchronizedData.t)
    (actions : option (PyDict.t float)) :
  calculate_rebalancing_actions ctx sd = Return actions →
  get_next_event ctx sd =
  Return match actions with
         | None => (Event_value DONE, None)
         | Some [] => (Event_value TRANSACT, None)
         | Some (item :: rest) =>
             (Event_value TRANSACT, Some (json_dumps ctx (item :: rest)))
         end.
Proof.
  intros Hres. unfold get_next_event. rewrite Hres. simpl.
  by destruct actions as [[|item rest]|].
Qed.

(** C2, at the input that tells the code from the claim. A portfolio on
    target (token values {A: 50, B: 50} of a total 100, targets [50, 50],
    threshold 5) needs no adjustment: calculate_rebalancing_actions
    returns the empty map, and get_next_event answers it with the value
    of TRANSACT and no adjustment payload, not with the value of DONE. *)
Theorem get_next_event_empty_map_transacts :
  calculate_rebalancing_actions (Scenarios.rebalancing_ctx 5) Scenarios.sd_50_50
  = Return (Some [])
  ∧ get_next_event (Scenarios.rebalancing_ctx 5) Scenarios.sd_50_50
    = Return (Event_value TRANSACT, None)
  ∧ Event_value TRANSACT ≠ Event_value DONE.
Proof. split; [|split]; [vm_compute; reflexivity .. | discriminate]. Qed.

(** ** Parameter validation *)

(** C7. validate_params raises, and then a ValueError, if and only if
    the token list and the target-percentage list differ in length, or the
    target percentages do not sum to 100, or the variation threshold is
    not within [0, 100]; when none of the three is violated it returns
    normally. It reads the parameters and has no other result: a raised
    error or a plain return, never an event. *)
Theorem validate_params_spec (self : Params.t) :
  let mismatch :=
    length (Params.tokens_to_rebalance self) ≠ length (Params.target_percentages self) in
  let bad_sum := (Py.sum (Params.target_percentages self) =? 100)%float = false in
  let out_of_range :=
    (0 <=? Params.variation_threshold self)%float
    && (Params.variation_threshold self <=? 100)%float = false in
  ((∃ msg, Params.validate_params self = Raise (ValueError msg))
   ↔ mismatch ∨ bad_sum ∨ out_of_range)
  ∧ (¬ (mismatch ∨ bad_sum ∨ out_of_range) ↔ Params.validate_params self = Return tt)
  ∧ (∀ e, Params.validate_params self = Raise e → ∃ msg, e = ValueError msg).
Proof.
  intros mismatch bad_sum out_of_range.
  unfold mismatch, bad_sum, out_of_range, Params.validate_params.
  destruct (Nat.eqb_spec (length (Params.tokens_to_rebalance self))
              (length (Params.target_percentages self))) as [Hlen|Hlen]; simpl.
  2: { split; [split; [intros _; by left | intros _; by eexists] |].
       split; [split; [intros Hn; destruct Hn; by left | done] |].
       intros e [= <-]. by eexists. }
  destruct (Py.sum (Params.target_percentages self) =? 100)%float; simpl.
  2: { split; [split; [intros _; right; by left | intros _; by eexists] |].
       split; [split; [intros Hn; destruct Hn; right; by left | done] |].
       intros e [= <-]. by eexists. }
  destruct ((0 <=? Params.variation_threshold self)%float
            && (Params.variation_threshold self <=? 100)%float); simpl.
  - split; [split; [intros [msg Hm]; discriminate Hm | intros [?|[?|?]]; done] |].
    split; [split; [done | intros _ [?|[?|?]]; done] | intros e He; discriminate He].
  - split; [split; [intros _; right; by right | intros _; by eexists] |].
    split; [split; [intros Hn; destruct Hn; right; by right | done] |].
    intros e [= <-]. by eexists.
Qed.

(** ** The threshold collector *)

Section CollectorFacts.
Context {P : Type} `{BaseTxPayload P}.

Lemma most_common_in_elem (all coll : list P) (v : list Scalar) (n : nat) :
  most_common_in all coll = Some (v, n) →
  ∃ p, p ∈ coll ∧ v = values p ∧ n = votes all v.
Proof.
  revert v n. induction coll as [|p coll IH]; intros v n; simpl; [done |].
  destruct (most_common_in all coll) as [[v' n']|] eqn:Hrest.
  - destruct (n' <=? votes all (values p)); intros [= <- <-].
    + exists p. split; [by apply elem_of_cons; left | done].
    + destruct (IH v' n' eq_refl) as (q & Hq & Hv & Hn).
      exists q. split; [by apply elem_of_cons; right | done].
  - intros [= <- <-]. exists p. split; [by apply elem_of_cons; left | done].
Qed.

Lemma threshold_reached_elem (n : nat) (coll : list P) :
  collector_threshold_reached n coll = true →
  ∃ p, p ∈ coll ∧ collector_most_voted_payload_values coll = values p.
Proof.
  unfold collector_threshold_reached, collector_most_voted_payload_values, most_common.
  destruct (most_common_in coll coll) as [[v c]|] eqn:Hmc; [|done].
  intros _. destruct (most_common_in_elem _ _ _ _ Hmc) as (p & Hp & -> & _).
  by exists p.
Qed.
End CollectorFacts.

Section CollectorExt.
Context {P Q : Type} `{BaseTxPayload P} `{BaseTxPayload Q}.

Lemma votes_ext (c1 : list P) (c2 : list Q) (v : list Scalar) :
  values <$> c1 = values <$> c2 → votes c1 v = votes c2 v.
Proof.
  revert c2. induction c1 as [|p c1 IH]; intros [|q c2] Heq; try done.
  injection Heq as Hpq Heq. unfold votes in *. simpl. rewrite Hpq.
  destruct (list_eqb Scalar_eqb (values q) v); simpl; by rewrite (IH c2).
Qed.

Lemma most_common_in_ext (all1 : list P) (all2 : list Q) (c1 : list P) (c2 : list Q) :
  values <$> all1 = values <$> all2 → values <$> c1 = values <$> c2 →
  most_common_in all1 c1 = most_common_in all2 c2.
Proof.
  intros Hall. revert c2. induction c1 as [|p c1 IH]; intros [|q c2] Heq; try done.
  injection Heq as Hpq Heq. simpl. rewrite (IH c2 Heq), Hpq.
  by rewrite (votes_ext all1 all2 (values q) Hall).
Qed.

Lemma serialized_collection_values (c1 : list P) (c2 : list Q) :
  serialized_collection c1 = serialized_collection c2 →
  values <$> c1 = values <$> c2.
Proof.
  unfold serialized_collection. intros Heq.
  apply (f_equal (fmap snd)) in Heq. by rewrite <- !list_fmap_compose in Heq.
Qed.
End CollectorExt.

(** ** The synchronized data *)

Lemma foldl_insert_notin (kwargs : list (string * DbVal)) (m : gmap string DbVal)
    (k : string) :
  k ∉ kwargs.*1 → foldl (λ m kv, <[kv.1 := kv.2]> m) m kwargs !! k = m !! k.
Proof.
  revert m. induction kwargs as [|[k' v] kwargs IH]; intros m Hk; [done |].
  csimpl in Hk. apply not_elem_of_cons in Hk as [Hne Hk]. simpl.
  rewrite IH by done. by rewrite lookup_insert_ne.
Qed.

Lemma foldl_insert_in (kwargs : list (string * DbVal)) (m : gmap string DbVal)
    (k : string) :
  k ∈ kwargs.*1 ∨ is_Some (m !! k) →
  is_Some (foldl (λ m kv, <[kv.1 := kv.2]> m) m kwargs !! k).
Proof.
  revert m. induction kwargs as [|[k' v] kwargs IH]; intros m Hk.
  - destruct Hk as [Hk|Hk]; [by apply elem_of_nil in Hk | done].
  - simpl. apply IH. csimpl in Hk. destruct (decide (k' = k)) as [->|Hne].
    + right. rewrite lookup_insert_eq. by eexists.
    + destruct Hk as [Hk|Hk].
      * apply elem_of_cons in Hk as [->|Hk]; [done | by left].
      * right. by rewrite lookup_insert_ne.
Qed.

Lemma update_notin (kwargs : list (string * DbVal)) (sd : SynchronizedData.t)
    (k : string) :
  k ∉ kwargs.*1 →
  SynchronizedData.db (SynchronizedData.update kwargs sd) !! k
  = SynchronizedData.db sd !! k.
Proof. apply foldl_insert_notin. Qed.

Lemma update_in (kwargs : list (string * DbVal)) (sd : SynchronizedData.t)
    (k : string) :
  k ∈ kwargs.*1 → is_Some (SynchronizedData.db (SynchronizedData.update kwargs sd) !! k).
Proof. intros Hk. apply foldl_insert_in. by left. Qed.

(** A round that keeps the base [end_block] only writes its selection
    keys and its collection key. *)
Lemma CollectSameUntilThresholdRound_end_block_frame {P} `{BaseTxPayload P}
    (cls : RoundClass) (self : RoundState P) (sd' : SynchronizedData.t)
    (ev : Event) (k : string) :
  CollectSameUntilThresholdRound_end_block cls self = Some (sd', ev) →
  k ∉ selection_key cls → k ≠ collection_key cls →
  SynchronizedData.db sd' !! k = SynchronizedData.db (synchronized_data self) !! k.
Proof.
  unfold CollectSameUntilThresholdRound_end_block. intros Hres Hsel Hcoll.
  destruct (threshold_reached self).
  - injection Hres as <- _. apply update_notin.
    rewrite fmap_app. apply not_elem_of_app. split.
    + intros Hin. apply Hsel. apply list_elem_of_fmap in Hin as ([k' v] & -> & Hin).
      by apply elem_of_zip_l in Hin.
    + simpl. by apply not_elem_of_cons; split; [|apply not_elem_of_nil].
  - destruct (negb _); [|done]. by injection Hres as <- _.
Qed.

(** ** ApiSelectionRound *)

(** What ApiSelectionRound.end_block returns on quorum: COINMARKETCAP
    with the quorum value recorded when it differs from the recorded
    selection, COINGECKO with the state as it is when it does not. *)
Lemma ApiSelectionRound_end_block_cases (self : RoundState ApiSelectionPayload.t) :
  threshold_reached self = true →
  ApiSelectionRound_end_block self =
  if DbVal_eqb (SynchronizedData.api_selection (synchronized_data self))
       (VScalar (most_voted_payload self))
  then Some (synchronized_data self, COINGECKO)
  else Some (SynchronizedData.update
               [("api_selection", VScalar (most_voted_payload self))]
               (synchronized_data self), COINMARKETCAP).
Proof.
  intros Hq. unfold ApiSelectionRound_end_block. rewrite Hq.
  by destruct (DbVal_eqb _ _).
Qed.

(** While the recorded selection is still "coingecko", the event is the
    one of the agreed API. *)
Lemma ApiSelectionRound_end_block_from_coingecko
    (self : RoundState ApiSelectionPayload.t) (choice : Event) :
  threshold_reached self = true →
  SynchronizedData.api_selection (synchronized_data self) = VScalar (SStr "coingecko") →
  choice = COINGECKO ∨ choice = COINMARKETCAP →
  most_voted_payload self = SStr (Event_value choice) →
  ∃ sd', ApiSelectionRound_end_block self = Some (sd', choice)
         ∧ SynchronizedData.api_selection sd' = VScalar (SStr (Event_value choice)).
Proof.
  intros Hq Hrec Hchoice Hmvp. rewrite (ApiSelectionRound_end_block_cases self Hq).
  rewrite Hrec, Hmvp. destruct Hchoice as [-> | ->]; simpl.
  - eexists. split; [done | by rewrite Hrec].
  - eexists. split; [done |].
    unfold SynchronizedData.api_selection, SynchronizedData.db_get. simpl.
    by rewrite lookup_insert_eq.
Qed.

(** ApiSelectionRound only runs over the store the run started with: it
    is the initial round, the only entries of the table that lead to it
    are its own retries, and its [end_block] emits neither NO_MAJORITY
    nor ROUND_TIMEOUT. *)
Lemma ApiSelectionRound_store_is_initial (admissible : Collection → Prop)
    (sd0 sd : SynchronizedData.t) :
  reachable admissible sd0 (ApiSelectionRound, sd) → sd = sd0.
Proof.
  intros Hrun. unfold reachable in Hrun.
  enough (Hinv : ∀ st, rtc (step admissible) (initial_round_cls, sd0) st →
                       st.1 = ApiSelectionRound → st.2 = sd0)
    by apply (Hinv _ Hrun eq_refl).
  clear sd Hrun. apply (rtc_ind_r (λ st, st.1 = ApiSelectionRound → st.2 = sd0)); [done |].
  intros st st' _ Hstep IH.
  destruct Hstep as [r sd1 c sd' ev r' _ Hres Hnext|r sd1 r' Hnext]; simpl in *.
  - intros ->.
    assert (Hr : r = ApiSelectionRound ∧ (ev = NO_MAJORITY ∨ ev = ROUND_TIMEOUT)).
    { destruct r, ev; try discriminate Hnext; split; tauto. }
    destruct Hr as [-> Hev]. exfalso.
    destruct c as [c|c|c|c|c]; try done. simpl in Hres.
    unfold ApiSelectionRound_end_block in Hres. simpl in Hres.
    destruct (collector_threshold_reached _ c); [|done].
    destruct (negb _); injection Hres as _ <-; by destruct Hev.
  - intros ->.
    assert (r = ApiSelectionRound) as ->
      by (destruct r; try discriminate Hnext; done).
    by apply IH.
Qed.




(** ** DecisionMakingRound *)

Lemma find_first {A} (f : A → bool) (before : list A) (x : A) (after : list A) :
  (∀ y, y ∈ before → f y = false) → f x = true →
  List.find f (before ++ x :: after) = Some x.
Proof.
  intros Hbefore Hx. induction before as [|y before IH]; simpl.
  - by rewrite Hx.
  - rewrite (Hbefore y) by (by apply elem_of_cons; left).
    apply IH. intros z Hz. apply Hbefore. by apply elem_of_cons; right.
Qed.

Lemma find_no_match {A} (f : A → bool) (l : list A) :
  (∀ y, y ∈ l → f y = false) → List.find f l = None.
Proof.
  intros Hl. induction l as [|y l IH]; simpl; [done |].
  rewrite (Hl y) by (by apply elem_of_cons; left).
  apply IH. intros z Hz. apply Hl. by apply elem_of_cons; right.
Qed.

(** C5. On quorum DecisionMakingRound.end_block looks for the first
    collected payload whose event equals the most voted value. When there
    is none it returns the synchronized data as they are with ERROR; when
    the payload found carries no adjustment map it returns them as they
    are with DONE; when it carries one it returns them extended with
    adjustment_balances, with TRANSACT, and TRANSACT is emitted in no
    other case. *)
Theorem DecisionMakingRound_end_block_on_quorum
    (self : RoundState DecisionMakingPayload.t) :
  threshold_reached self = true →
  let matches payload :=
    Scalar_eqb (SStr (DecisionMakingPayload.event payload)) (most_voted_payload self)
    = true in
  let extended adjustment_balances :=
    SynchronizedData.update
      [("adjustment_balances", VScalar (SStr adjustment_balances))]
      (synchronized_data self) in
  ((∀ payload, payload ∈ collection self → ¬ matches payload) →
   DecisionMakingRound_end_block self = Some (synchronized_data self, ERROR))
  ∧ (∀ before payload after,
       collection self = before ++ payload :: after →
       (∀ earlier, earlier ∈ before → ¬ matches earlier) →
       matches payload →
       DecisionMakingRound_end_block self =
       match DecisionMakingPayload.adjustment_balances payload with
       | None => Some (synchronized_data self, DONE)
       | Some adjustment_balances => Some (extended adjustment_balances, TRANSACT)
       end)
  ∧ (∀ sd', DecisionMakingRound_end_block self = Some (sd', TRANSACT) →
       ∃ payload adjustment_balances,
         payload ∈ collection self ∧ matches payload
         ∧ DecisionMakingPayload.adjustment_balances payload = Some adjustment_balances
         ∧ sd' = extended adjustment_balances).
Proof.
  intros Hq matches extended. unfold DecisionMakingRound_end_block. rewrite Hq.
  split; [|split].
  - intros Hnone. rewrite find_no_match; [done |].
    intros payload Hin. specialize (Hnone payload Hin). unfold matches in Hnone.
    by destruct (Scalar_eqb _ _).
  - intros before payload after Hcoll Hbefore Hmatch. rewrite Hcoll.
    rewrite find_first; [by destruct (DecisionMakingPayload.adjustment_balances payload) | |done].
    intros earlier Hin. specialize (Hbefore earlier Hin). unfold matches in Hbefore.
    by destruct (Scalar_eqb _ _).
  - intros sd' Hres.
    destruct (List.find _ (collection self)) as [payload|] eqn:Hfind; [|done].
    apply List.find_some in Hfind as [Hin Hmatch].
    destruct (DecisionMakingPayload.adjustment_balances payload) as [adj|] eqn:Hadj; [|done].
    injection Hres as <-. exists payload, adj.
    split; [by apply list_elem_of_In |]. done.
Qed.

Lemma DecisionMakingRound_end_block_on_quorum_witness :
  DecisionMakingRound_end_block
    (round_state Scenarios.sd_pulled (Scenarios.decision_votes DONE None))
  = Some (Scenarios.sd_pulled, DONE).
Proof.
  destruct (DecisionMakingRound_end_block_on_quorum
              (round_state Scenarios.sd_pulled (Scenarios.decision_votes DONE None)))
    as (_ & Hfirst & _).
  - vm_compute; reflexivity.
  - apply (Hfirst [] _ _ eq_refl).
    + intros earlier Hin. by apply elem_of_nil in Hin.
    + vm_compute; reflexivity.
Defined.

(** ** DataPullRound and AlternativeDataPullRound *)

(** C8. Over the same synchronized data and collections of the same
    senders and field values, DataPullRound.end_block and
    AlternativeDataPullRound.end_block return the same. Both store the
    collection under participant_to_data_round and project token_values
    and total_portfolio_value; on quorum they emit DONE with the state so
    extended, and without quorum, once a majority is impossible, they emit
    NO_MAJORITY with the state as it is. *)
Theorem DataPullRound_AlternativeDataPullRound_agree (sd : SynchronizedData.t)
    (c1 : list DataPullPayload.t) (c2 : list AlternativeDataPullPayload.t) :
  serialized_collection c1 = serialized_collection c2 →
  DataPullRound_end_block (round_state sd c1)
  = AlternativeDataPullRound_end_block (round_state sd c2)
  ∧ collection_key DataPullRound_cls = "participant_to_data_round"
  ∧ collection_key AlternativeDataPullRound_cls = "participant_to_data_round"
  ∧ selection_key DataPullRound_cls = ["token_values"; "total_portfolio_value"]
  ∧ selection_key AlternativeDataPullRound_cls = ["token_values"; "total_portfolio_value"]
  ∧ (threshold_reached (round_state sd c1) = true →
     ∃ payload,
       payload ∈ c1
       ∧ DataPullRound_end_block (round_state sd c1) =
         Some (SynchronizedData.update
                 [("token_values",
                   VScalar (of_optional_str (DataPullPayload.token_values payload)));
                  ("total_portfolio_value",
                   VScalar (of_optional_float
                              (DataPullPayload.total_portfolio_value payload)));
                  ("participant_to_data_round", VCollection (serialized_collection c1))]
                 sd, DONE))
  ∧ (threshold_reached (round_state sd c1) = false →
     is_majority_possible (round_state sd c1) c1 (SynchronizedData.nb_participants sd)
     = false →
     DataPullRound_end_block (round_state sd c1) = Some (sd, NO_MAJORITY)).
Proof.
  intros Hser. pose proof (serialized_collection_values c1 c2 Hser) as Hvals.
  assert (Hlen : length c1 = length c2).
  { apply (f_equal length) in Hvals. by rewrite !length_fmap in Hvals. }
  assert (Hmc : most_common c1 = most_common c2).
  { by apply most_common_in_ext. }
  repeat split.
  - unfold DataPullRound_end_block, AlternativeDataPullRound_end_block,
      CollectSameUntilThresholdRound_end_block, round_state. simpl.
    unfold collector_threshold_reached, collector_most_voted_payload_values,
      collector_is_majority_possible.
    by rewrite Hmc, Hser, Hlen.
  - simpl. intros Hq. destruct (threshold_reached_elem _ _ Hq) as (payload & Hin & Hmv).
    exists payload. split; [done |].
    unfold DataPullRound_end_block, CollectSameUntilThresholdRound_end_block. simpl.
    rewrite Hq, Hmv. reflexivity.
  - simpl. intros Hq Hmaj.
    unfold DataPullRound_end_block, CollectSameUntilThresholdRound_end_block. simpl.
    by rewrite Hq, Hmaj.
Qed.

Lemma DataPullRound_AlternativeDataPullRound_agree_witness :
  DataPullRound_end_block (round_state Scenarios.sd_selected Scenarios.data_votes)
  = AlternativeDataPullRound_end_block
      (round_state Scenarios.sd_selected Scenarios.alternative_data_votes).
Proof.
  apply (DataPullRound_AlternativeDataPullRound_agree Scenarios.sd_selected
           Scenarios.data_votes Scenarios.alternative_data_votes).
  vm_compute; reflexivity.
Defined.

(** ** The workflow *)

Lemma next_round_FinishedTxPreparationRound (r : AppState) (ev : Event) :
  next_round r ev = Some FinishedTxPreparationRound →
  r = TxPreparationRound ∧ ev = DONE.
Proof. by destruct r, ev. Qed.

Lemma next_round_ROUND_TIMEOUT (r r' : AppState) :
  next_round r ROUND_TIMEOUT = Some r' → r' = r ∧ db_post_conditions r' = None.
Proof. destruct r; intros [= <-]; done. Qed.

(** TxPreparationRound only emits DONE with its two selection keys
    projected. *)
Lemma TxPreparationRound_DONE_projects (sd sd' : SynchronizedData.t) (c : Collection) :
  end_block TxPreparationRound sd c = Some (sd', DONE) →
  is_Some (SynchronizedData.db sd' !! "tx_submitter")
  ∧ is_Some (SynchronizedData.db sd' !! "most_voted_tx_hash").
Proof.
  destruct c as [| | | |c]; try done. simpl.
  unfold TxPreparationRound_end_block, CollectSameUntilThresholdRound_end_block. simpl.
  destruct (collector_threshold_reached _ c) eqn:Hq.
  - destruct (threshold_reached_elem _ _ Hq) as (p & _ & ->).
    intros [= <-]. split; apply update_in; solve_key.
  - by destruct (negb _).
Qed.

Lemma ApiSelectionBehaviour_async_act_normalized (ctx : Context) :
  ApiSelectionPayload.api_selection (ApiSelectionBehaviour_async_act ctx)
  = if String.eqb (Params.api_selection_string (params ctx)) "coinmarketcap"
    then "coinmarketcap" else "coingecko".
Proof.
  unfold ApiSelectionBehaviour_async_act. simpl.
  by destruct (String.eqb_spec (Params.api_selection_string (params ctx)) "coinmarketcap")
    as [->|].
Qed.

Lemma api_selection_frame (sd sd' : SynchronizedData.t) :
  SynchronizedData.db sd' !! "api_selection" = SynchronizedData.db sd !! "api_selection" →
  SynchronizedData.api_selection sd' = SynchronizedData.api_selection sd.
Proof.
  intros Heq. unfold SynchronizedData.api_selection, SynchronizedData.db_get.
  by rewrite Heq.
Qed.

Lemma end_block_known_api (r : AppState) (sd sd' : SynchronizedData.t)
    (c : Collection) (ev : Event) :
  Spec.from_ApiSelectionBehaviour c →
  end_block r sd c = Some (sd', ev) →
  Spec.known_api (SynchronizedData.api_selection sd) →
  Spec.known_api (SynchronizedData.api_selection sd').
Proof.
  intros Hc Hres Hsd.
  destruct r, c as [c|c|c|c|c]; try done; simpl in Hres.
  - (* ApiSelectionRound *)
    unfold ApiSelectionRound_end_block in Hres. simpl in Hres.
    destruct (collector_threshold_reached _ c) eqn:Hq; [|done].
    destruct (negb _); [|by injection Hres as <- _].
    injection Hres as <- _.
    destruct (threshold_reached_elem _ _ Hq) as (p & Hp & Hmv).
    unfold most_voted_payload. simpl. rewrite Hmv. simpl.
    unfold SynchronizedData.api_selection, SynchronizedData.db_get. simpl.
    rewrite lookup_insert_eq. simpl.
    simpl in Hc. rewrite Forall_forall in Hc. destruct (Hc p Hp) as [ctx ->].
    rewrite ApiSelectionBehaviour_async_act_normalized.
    destruct (String.eqb _ _); [by right | by left].
  - (* DataPullRound *)
    rewrite (api_selection_frame sd sd'); [done |].
    apply (CollectSameUntilThresholdRound_end_block_frame _ _ _ _ _ Hres);
      solve_key.
  - (* AlternativeDataPullRound *)
    rewrite (api_selection_frame sd sd'); [done |].
    apply (CollectSameUntilThresholdRound_end_block_frame _ _ _ _ _ Hres);
      solve_key.
  - (* DecisionMakingRound *)
    rewrite (api_selection_frame sd sd'); [done |].
    unfold DecisionMakingRound_end_block in Hres. simpl in Hres.
    destruct (collector_threshold_reached _ c).
    + destruct (List.find _ c) as [p|]; [|by injection Hres as <- _].
      destruct (DecisionMakingPayload.adjustment_balances p);
        injection Hres as <- _; [|done].
      apply update_notin. solve_key.
    + destruct (negb _); [|done]. by injection Hres as <- _.
  - (* TxPreparationRound *)
    rewrite (api_selection_frame sd sd'); [done |].
    apply (CollectSameUntilThresholdRound_end_block_frame _ _ _ _ _ Hres);
      solve_key.
Qed.

(** C9. The api_selection read from the synchronized data is "coingecko"
    as long as no round has set the key; the payload ApiSelectionBehaviour
    submits carries "coinmarketcap" when that is the configured string and
    "coingecko" for every other; and along every run from a store without
    the key, in which the payloads of ApiSelectionRound are those the
    behaviour submits, the api_selection read is one of the two; such a
    run, of agents configured with "coinmarketcap", records
    "coinmarketcap". *)
Theorem api_selection_is_known :
  (∀ sd, SynchronizedData.db sd !! "api_selection" = None →
         SynchronizedData.api_selection sd = VScalar (SStr "coingecko"))
  ∧ (∀ ctx,
       ApiSelectionPayload.api_selection (ApiSelectionBehaviour_async_act ctx)
       = if String.eqb (Params.api_selection_string (params ctx)) "coinmarketcap"
         then "coinmarketcap" else "coingecko")
  ∧ (∀ sd0 r sd,
       SynchronizedData.db sd0 !! "api_selection" = None →
       reachable Spec.from_ApiSelectionBehaviour sd0 (r, sd) →
       SynchronizedData.api_selection sd = VScalar (SStr "coingecko")
       ∨ SynchronizedData.api_selection sd = VScalar (SStr "coinmarketcap"))
  ∧ (reachable Spec.from_ApiSelectionBehaviour Scenarios.sd_initial
       (AlternativeDataPullRound, Scenarios.sd_alternative)
     ∧ SynchronizedData.api_selection Scenarios.sd_alternative
       = VScalar (SStr "coinmarketcap")).
Proof.
  split; [|split; [|split]].
  - intros sd Hnone. unfold SynchronizedData.api_selection, SynchronizedData.db_get.
    by rewrite Hnone.
  - apply ApiSelectionBehaviour_async_act_normalized.
  - intros sd0 r sd Hnone Hrun. unfold reachable in Hrun.
    change (Spec.known_api (SynchronizedData.api_selection (r, sd).2)).
    revert Hrun. generalize (r, sd). clear r sd.
    apply rtc_ind_r.
    + left. unfold SynchronizedData.api_selection, SynchronizedData.db_get.
      simpl. by rewrite Hnone.
    + intros st st' _ Hstep IH. destruct Hstep as [r sd c sd' ev r' Hc Hres _|r sd r' _].
      * by apply (end_block_known_api r sd sd' c ev).
      * done.
  - split; [|vm_compute; reflexivity].
    unfold reachable, initial_round_cls. eapply rtc_l; [|apply rtc_refl].
    apply (step_end_block _ ApiSelectionRound Scenarios.sd_initial
             (ApiSelectionPayloads (Scenarios.api_votes "coinmarketcap"))
             Scenarios.sd_alternative COINMARKETCAP AlternativeDataPullRound);
      [|vm_compute; reflexivity | reflexivity].
    simpl. unfold Scenarios.api_votes. apply Forall_fmap, Forall_forall.
    intros agent _. simpl. by eexists.
Qed.

(** C10. The declared post-conditions are {most_voted_tx_hash} for
    FinishedTxPreparationRound and the empty set for
    FinishedDecisionMakingRound; TxPreparationRound projects tx_submitter
    and most_voted_tx_hash, so that whenever it emits DONE both keys are
    in the store; in every run the keys declared for the round reached are
    in the store; FinishedTxPreparationRound is reached by a run; and a
    run reaches FinishedDecisionMakingRound with no most_voted_tx_hash. *)
Theorem db_post_conditions_hold :
  db_post_conditions FinishedTxPreparationRound = Some {["most_voted_tx_hash"]}
  ∧ db_post_conditions FinishedDecisionMakingRound = Some ∅
  ∧ selection_key TxPreparationRound_cls = ["tx_submitter"; "most_voted_tx_hash"]
  ∧ (∀ sd c sd',
       end_block TxPreparationRound sd c = Some (sd', DONE) →
       is_Some (SynchronizedData.db sd' !! "tx_submitter")
       ∧ is_Some (SynchronizedData.db sd' !! "most_voted_tx_hash"))
  ∧ (∀ sd0 r sd keys key,
       reachable (λ _, True) sd0 (r, sd) →
       db_post_conditions r = Some keys → key ∈ keys →
       is_Some (SynchronizedData.db sd !! key))
  ∧ reachable (λ _, True) Scenarios.sd_initial
      (FinishedTxPreparationRound, Scenarios.sd_prepared)
  ∧ reachable (λ _, True) Scenarios.sd_initial
      (FinishedDecisionMakingRound, Scenarios.sd_undecided)
  ∧ SynchronizedData.db Scenarios.sd_undecided !! "most_voted_tx_hash" = None.
Proof.
  split; [done |]. split; [done |]. split; [done |].
  split; [intros sd c sd'; apply TxPreparationRound_DONE_projects |].
  split; [|split; [|split]].
  - intros sd0 r sd keys key Hrun. unfold reachable in Hrun.
    change (db_post_conditions (r, sd).1 = Some keys → key ∈ keys →
            is_Some (SynchronizedData.db (r, sd).2 !! key)).
    revert keys key. revert Hrun. generalize (r, sd). clear r sd.
    apply (rtc_ind_r (λ st, ∀ keys key, db_post_conditions st.1 = Some keys → key ∈ keys →
                              is_Some (SynchronizedData.db st.2 !! key))).
    + done.
    + intros st st' _ Hstep IH keys key.
      destruct Hstep as [r sd c sd' ev r' _ Hres Hnext|r sd r' Hnext]; simpl.
      * destruct r'; try done.
        -- intros [= <-]. set_solver.
        -- apply next_round_FinishedTxPreparationRound in Hnext as [-> ->].
           intros [= <-] Hkey. apply elem_of_singleton in Hkey as ->.
           by apply (TxPreparationRound_DONE_projects sd sd' c).
      * apply next_round_ROUND_TIMEOUT in Hnext as [_ Hnone]. by rewrite Hnone.
  - unfold reachable, initial_round_cls.
    eapply rtc_l.
    { apply (step_end_block _ ApiSelectionRound Scenarios.sd_initial
               (ApiSelectionPayloads (Scenarios.api_votes "coingecko"))
               Scenarios.sd_selected COINGECKO DataPullRound);
        [done | vm_compute; reflexivity | reflexivity]. }
    eapply rtc_l.
    { apply (step_end_block _ DataPullRound Scenarios.sd_selected
               (DataPullPayloads Scenarios.data_votes)
               Scenarios.sd_pulled DONE DecisionMakingRound);
        [done | vm_compute; reflexivity | reflexivity]. }
    eapply rtc_l.
    { apply (step_end_block _ DecisionMakingRound Scenarios.sd_pulled
               (DecisionMakingPayloads
                  (Scenarios.decision_votes TRANSACT (Some Scenarios.doc_25_12)))
               Scenarios.sd_decided TRANSACT TxPreparationRound);
        [done | vm_compute; reflexivity | reflexivity]. }
    eapply rtc_l; [|apply rtc_refl].
    apply (step_end_block _ TxPreparationRound Scenarios.sd_decided
             (TxPreparationPayloads Scenarios.tx_votes)
             Scenarios.sd_prepared DONE FinishedTxPreparationRound);
      [done | vm_compute; reflexivity | reflexivity].
  - unfold reachable, initial_round_cls.
    eapply rtc_l.
    { apply (step_end_block _ ApiSelectionRound Scenarios.sd_initial
               (ApiSelectionPayloads (Scenarios.api_votes "coingecko"))
               Scenarios.sd_selected COINGECKO DataPullRound);
        [done | vm_compute; reflexivity | reflexivity]. }
    eapply rtc_l.
    { apply (step_end_block _ DataPullRound Scenarios.sd_selected
               (DataPullPayloads Scenarios.data_votes)
               Scenarios.sd_pulled DONE DecisionMakingRound);
        [done | vm_compute; reflexivity | reflexivity]. }
    eapply rtc_l; [|apply rtc_refl].
    apply (step_end_block _ DecisionMakingRound Scenarios.sd_pulled
             (DecisionMakingPayloads (Scenarios.decision_votes DONE None))
             Scenarios.sd_undecided DONE FinishedDecisionMakingRound);
      [done | vm_compute; reflexivity | reflexivity].
  - vm_compute; reflexivity.
Qed.

(** ** More on the rounds *)

(** X1. While the recorded selection reads "coingecko" (the default
    included), a quorum on one of the two API names makes
    ApiSelectionRound.end_block emit the event of that name, leave that
    name readable as api_selection, and the transition function routes
    COINGECKO to DataPullRound and COINMARKETCAP to
    AlternativeDataPullRound. *)
Theorem ApiSelectionRound_routes_by_choice
    (self : RoundState ApiSelectionPayload.t) (choice : Event) :
  threshold_reached self = true →
  SynchronizedData.api_selection (synchronized_data self) = VScalar (SStr "coingecko") →
  choice = COINGECKO ∨ choice = COINMARKETCAP →
  most_voted_payload self = SStr (Event_value choice) →
  ∃ sd', ApiSelectionRound_end_block self = Some (sd', choice)
         ∧ SynchronizedData.api_selection sd' = VScalar (SStr (Event_value choice))
         ∧ next_round ApiSelectionRound choice
           = Some (if decide (choice = COINGECKO) then DataPullRound
                   else AlternativeDataPullRound).
Proof.
  intros Hq Hrec Hchoice Hmvp.
  destruct (ApiSelectionRound_end_block_from_coingecko self choice Hq Hrec Hchoice Hmvp)
    as (sd' & Hres & Hsel).
  exists sd'. split; [done |]. split; [done |]. by destruct Hchoice as [-> | ->].
Qed.

Lemma ApiSelectionRound_routes_by_choice_witness :
  ∃ sd', ApiSelectionRound_end_block
           (round_state Scenarios.sd_initial (Scenarios.api_votes "coinmarketcap"))
         = Some (sd', COINMARKETCAP)
         ∧ SynchronizedData.api_selection sd' = VScalar (SStr "coinmarketcap").
Proof.
  destruct (ApiSelectionRound_routes_by_choice
              (round_state Scenarios.sd_initial (Scenarios.api_votes "coinmarketcap"))
              COINMARKETCAP) as (sd' & Hres & Hsel & _).
  - vm_compute; reflexivity.
  - vm_compute; reflexivity.
  - by right.
  - vm_compute; reflexivity.
  - exists sd'. split; [exact Hres | exact Hsel].
Defined.

(** X2. ApiSelectionRound.end_block has three outcomes only. Without
    quorum it returns None, whatever is_majority_possible answers: it never
    emits NO_MAJORITY. With quorum it emits COINGECKO and returns the
    synchronized data as they are, or emits COINMARKETCAP and returns them
    with api_selection set to the most voted value and every other key,
    and the number of participants, as before; the collection is not
    stored. *)
Theorem ApiSelectionRound_end_block_outcomes (self : RoundState ApiSelectionPayload.t) :
  (threshold_reached self = false → ApiSelectionRound_end_block self = None)
  ∧ (∀ sd' ev,
       ApiSelectionRound_end_block self = Some (sd', ev) →
       threshold_reached self = true
       ∧ ((ev = COINGECKO ∧ sd' = synchronized_data self)
          ∨ (ev = COINMARKETCAP
             ∧ SynchronizedData.db sd' !! "api_selection"
               = Some (VScalar (most_voted_payload self))
             ∧ SynchronizedData.nb_participants sd'
               = SynchronizedData.nb_participants (synchronized_data self)
             ∧ ∀ k, k ≠ "api_selection" →
                 SynchronizedData.db sd' !! k
                 = SynchronizedData.db (synchronized_data self) !! k))).
Proof.
  unfold ApiSelectionRound_end_block. split.
  - by intros ->.
  - intros sd' ev. destruct (threshold_reached self); [|done].
    destruct (negb _); intros [= <- <-]; (split; [done |]); [right | by left].
    split; [done |]. split; [simpl; by rewrite lookup_insert_eq |]. split; [done |].
    intros k Hk. simpl. by rewrite lookup_insert_ne.
Qed.

(** X3. ApiSelectionRound.end_block does not repeat its event: when a
    quorum on an API name made it emit COINMARKETCAP, a round with the
    same votes over the synchronized data it returned emits COINGECKO
    and leaves them as they are, whichever name was voted. *)
Theorem ApiSelectionRound_end_block_again
    (self : RoundState ApiSelectionPayload.t) (name : string)
    (sd' : SynchronizedData.t) :
  most_voted_payload self = SStr name →
  ApiSelectionRound_end_block self = Some (sd', COINMARKETCAP) →
  ApiSelectionRound_end_block (Spec.over self sd') = Some (sd', COINGECKO).
Proof.
  intros Hmvp Hres. unfold ApiSelectionRound_end_block in *.
  change (threshold_reached (Spec.over self sd')) with (threshold_reached self).
  change (most_voted_payload (Spec.over self sd')) with (most_voted_payload self).
  change (synchronized_data (Spec.over self sd')) with sd'.
  destruct (threshold_reached self); [|done].
  destruct (negb _); [|done]. injection Hres as <-.
  unfold SynchronizedData.api_selection, SynchronizedData.db_get. simpl.
  rewrite lookup_insert_eq. simpl. rewrite Hmvp. simpl.
  by rewrite String.eqb_refl.
Qed.

Lemma ApiSelectionRound_end_block_again_witness :
  ∃ sd', ApiSelectionRound_end_block
           (round_state Scenarios.sd_initial (Scenarios.api_votes "coinmarketcap"))
         = Some (sd', COINMARKETCAP)
         ∧ ApiSelectionRound_end_block
             (Spec.over (round_state Scenarios.sd_initial
                           (Scenarios.api_votes "coinmarketcap")) sd')
           = Some (sd', COINGECKO).
Proof.
  exists Scenarios.sd_alternative.
  assert (H : ApiSelectionRound_end_block
                (round_state Scenarios.sd_initial (Scenarios.api_votes "coinmarketcap"))
              = Some (Scenarios.sd_alternative, COINMARKETCAP))
    by (vm_compute; reflexivity).
  split; [exact H |].
  apply (ApiSelectionRound_end_block_again _ "coinmarketcap"); [|exact H].
  vm_compute; reflexivity.
Defined.

(** X4. Whatever DecisionMakingRound.end_block returns, the event is
    ERROR, DONE, TRANSACT or NO_MAJORITY; NO_MAJORITY only comes without
    quorum and the other three only with it; unless the event is TRANSACT
    the synchronized data are returned as they are, and with TRANSACT they
    differ in adjustment_balances alone: the collection is not stored
    under participant_to_decision_making_round. *)
Theorem DecisionMakingRound_end_block_outcomes
    (self : RoundState DecisionMakingPayload.t) (sd' : SynchronizedData.t) (ev : Event) :
  DecisionMakingRound_end_block self = Some (sd', ev) →
  (ev = ERROR ∨ ev = DONE ∨ ev = TRANSACT ∨ ev = NO_MAJORITY)
  ∧ (threshold_reached self = false ↔ ev = NO_MAJORITY)
  ∧ (ev ≠ TRANSACT → sd' = synchronized_data self)
  ∧ SynchronizedData.nb_participants sd'
    = SynchronizedData.nb_participants (synchronized_data self)
  ∧ (∀ k, k ≠ "adjustment_balances" →
       SynchronizedData.db sd' !! k = SynchronizedData.db (synchronized_data self) !! k).
Proof.
  unfold DecisionMakingRound_end_block.
  destruct (threshold_reached self).
  - destruct (List.find _ _) as [payload|].
    + destruct (DecisionMakingPayload.adjustment_balances payload) as [adj|];
        intros [= <- <-].
      * split; [by right; right; left |]. split; [done |]. split; [done |].
        split; [done |]. intros k Hk. simpl. by rewrite lookup_insert_ne.
      * split; [by right; left |]. done.
    + intros [= <- <-]. split; [by left |]. done.
  - destruct (negb _); [|done]. intros [= <- <-].
    split; [by right; right; right |]. done.
Qed.

Lemma DecisionMakingRound_end_block_outcomes_witness :
  SynchronizedData.db Scenarios.sd_decided !! "token_values"
  = SynchronizedData.db Scenarios.sd_pulled !! "token_values"
  ∧ SynchronizedData.nb_participants Scenarios.sd_decided = 4.
Proof.
  destruct (DecisionMakingRound_end_block_outcomes
              (round_state Scenarios.sd_pulled
                 (Scenarios.decision_votes TRANSACT (Some Scenarios.doc_25_12)))
              Scenarios.sd_decided TRANSACT) as (_ & _ & _ & Hnb & Hframe).
  - vm_compute; reflexivity.
  - split; [by apply Hframe | exact Hnb].
Defined.

(** X5. A payload of DecisionMakingBehaviour through DecisionMakingRound.
    When the first collected payload is the one the behaviour submits and
    quorum is reached on its event, the round emits TRANSACT, with the
    serialized map stored as adjustment_balances, exactly when
    calculate_rebalancing_actions returned a map that is not empty; when
    it returned the empty map or None the round emits DONE and returns the
    synchronized data as they are. *)
Theorem decision_payload_through_round (ctx : Context) (behaviour_data : SynchronizedData.t)
    (self : RoundState DecisionMakingPayload.t)
    (payload : DecisionMakingPayload.t) (rest : list DecisionMakingPayload.t) :
  DecisionMakingBehaviour_async_act ctx behaviour_data = Return payload →
  threshold_reached self = true →
  collection self = payload :: rest →
  most_voted_payload self = SStr (DecisionMakingPayload.event payload) →
  ∃ actions,
    calculate_rebalancing_actions ctx behaviour_data = Return actions
    ∧ DecisionMakingRound_end_block self =
      match actions with
      | Some (item :: more) =>
          Some (SynchronizedData.update
                  [("adjustment_balances",
                    VScalar (SStr (json_dumps ctx (item :: more))))]
                  (synchronized_data self), TRANSACT)
      | _ => Some (synchronized_data self, DONE)
      end.
Proof.
  intros Hact Hq Hcoll Hmvp.
  unfold DecisionMakingBehaviour_async_act, get_next_event in Hact.
  destruct (calculate_rebalancing_actions ctx behaviour_data) as [actions|e]; [|done].
  exists actions. split; [done |].
  unfold DecisionMakingRound_end_block. rewrite Hq, Hcoll, Hmvp. simpl.
  rewrite String.eqb_refl.
  destruct actions as [[|item more]|]; simpl in Hact; by injection Hact as <-.
Qed.

Lemma decision_payload_through_round_witness :
  DecisionMakingRound_end_block
    (Scenarios.quorum_on Scenarios.sd_pulled
       [ {| DecisionMakingPayload.sender := "agent_0";
            DecisionMakingPayload.event := "transact";
            DecisionMakingPayload.adjustment_balances := None |} ]
       [SStr "transact"; SNone])
  = Some (Scenarios.sd_pulled, DONE).
Proof.
  destruct (decision_payload_through_round (Scenarios.rebalancing_ctx 5) Scenarios.sd_50_50
              (Scenarios.quorum_on Scenarios.sd_pulled
                 [ {| DecisionMakingPayload.sender := "agent_0";
                      DecisionMakingPayload.event := "transact";
                      DecisionMakingPayload.adjustment_balances := None |} ]
                 [SStr "transact"; SNone])
              {| DecisionMakingPayload.sender := "agent_0";
                 DecisionMakingPayload.event := "transact";
                 DecisionMakingPayload.adjustment_balances := None |} [])
    as (actions & Hactions & Hres).
  - vm_compute; reflexivity.
  - reflexivity.
  - reflexivity.
  - reflexivity.
  - rewrite Hres.
    assert (Hempty : calculate_rebalancing_actions (Scenarios.rebalancing_ctx 5)
                       Scenarios.sd_50_50 = Return (Some []))
      by (vm_compute; reflexivity).
    rewrite Hempty in Hactions. by injection Hactions as <-.
Defined.

(** Every result of [end_block] is the synchronized data of the round
    updated on keys the round writes. *)
Lemma end_block_shape (r : AppState) (sd sd' : SynchronizedData.t)
    (c : Collection) (ev : Event) :
  end_block r sd c = Some (sd', ev) →
  ∃ kwargs, sd' = SynchronizedData.update kwargs sd
            ∧ ∀ k, k ∈ kwargs.*1 → k ∈ Spec.written_keys r.
Proof.
  assert (Hid : sd = SynchronizedData.update [] sd) by by destruct sd.
  assert (Hbase : ∀ (P : Type) (H : BaseTxPayload P) (cls : RoundClass) (self : RoundState P),
            synchronized_data self = sd →
            CollectSameUntilThresholdRound_end_block cls self = Some (sd', ev) →
            ∃ kwargs, sd' = SynchronizedData.update kwargs sd
                      ∧ ∀ k, k ∈ kwargs.*1 →
                          k ∈ selection_key cls ++ [collection_key cls]).
  { intros P H cls self Hsd. unfold CollectSameUntilThresholdRound_end_block.
    rewrite Hsd. destruct (threshold_reached self).
    - intros [= <- _]. eexists. split; [done |]. intros k.
      rewrite fmap_app, !elem_of_app. intros [Hk|Hk]; [left | by right].
      apply list_elem_of_fmap in Hk as ([k' v] & -> & Hk). by apply elem_of_zip_l in Hk.
    - destruct (negb _); [|done]. intros [= <- _]. exists []. split; [done |].
      intros k Hk. by apply elem_of_nil in Hk. }
  destruct r, c as [c|c|c|c|c]; try done; simpl.
  - unfold ApiSelectionRound_end_block. simpl.
    destruct (collector_threshold_reached _ c); [|done].
    destruct (negb _); intros [= <- _].
    + eexists. split; [done |]. simpl. intros k Hk. exact Hk.
    + exists []. split; [done |]. intros k Hk. by apply elem_of_nil in Hk.
  - by apply Hbase.
  - by apply Hbase.
  - unfold DecisionMakingRound_end_block. simpl.
    destruct (collector_threshold_reached _ c).
    + destruct (List.find _ c) as [p|].
      * destruct (DecisionMakingPayload.adjustment_balances p); intros [= <- _].
        -- eexists. split; [done |]. simpl. intros k Hk. exact Hk.
        -- exists []. split; [done |]. intros k Hk. by apply elem_of_nil in Hk.
      * intros [= <- _]. exists []. split; [done |]. intros k Hk. by apply elem_of_nil in Hk.
    + destruct (negb _); [|done]. intros [= <- _].
      exists []. split; [done |]. intros k Hk. by apply elem_of_nil in Hk.
  - by apply Hbase.
Qed.

Lemma end_block_frame (r : AppState) (sd sd' : SynchronizedData.t)
    (c : Collection) (ev : Event) (k : string) :
  end_block r sd c = Some (sd', ev) → k ∉ Spec.written_keys r →
  SynchronizedData.db sd' !! k = SynchronizedData.db sd !! k.
Proof.
  intros Hres Hk. destruct (end_block_shape _ _ _ _ _ Hres) as (kwargs & -> & Hkeys).
  apply update_notin. intros Hin. by apply Hk, Hkeys.
Qed.

Lemma end_block_mono (r : AppState) (sd sd' : SynchronizedData.t)
    (c : Collection) (ev : Event) (k : string) :
  end_block r sd c = Some (sd', ev) →
  is_Some (SynchronizedData.db sd !! k) → is_Some (SynchronizedData.db sd' !! k).
Proof.
  intros Hres Hk. destruct (end_block_shape _ _ _ _ _ Hres) as (kwargs & -> & _).
  apply foldl_insert_in. by right.
Qed.

(** X6. A round never emits an event its row of the transition function
    lacks: whatever [end_block] returns, the next round is defined. *)
Theorem emitted_events_have_transitions (r : AppState) (sd sd' : SynchronizedData.t)
    (c : Collection) (ev : Event) :
  end_block r sd c = Some (sd', ev) → ∃ r', next_round r ev = Some r'.
Proof.
  destruct r, c as [c|c|c|c|c]; try done; simpl.
  - unfold ApiSelectionRound_end_block. simpl.
    destruct (collector_threshold_reached _ c); [|done].
    destruct (negb _); intros [= _ <-]; by eexists.
  - unfold DataPullRound_end_block, CollectSameUntilThresholdRound_end_block. simpl.
    destruct (collector_threshold_reached _ c); [intros [= _ <-]; by eexists |].
    destruct (negb _); [|done]. intros [= _ <-]; by eexists.
  - unfold AlternativeDataPullRound_end_block, CollectSameUntilThresholdRound_end_block.
    simpl. destruct (collector_threshold_reached _ c); [intros [= _ <-]; by eexists |].
    destruct (negb _); [|done]. intros [= _ <-]; by eexists.
  - unfold DecisionMakingRound_end_block. simpl.
    destruct (collector_threshold_reached _ c).
    + destruct (List.find _ c) as [p|]; [|intros [= _ <-]; by eexists].
      destruct (DecisionMakingPayload.adjustment_balances p); intros [= _ <-]; by eexists.
    + destruct (negb _); [|done]. intros [= _ <-]; by eexists.
  - unfold TxPreparationRound_end_block, CollectSameUntilThresholdRound_end_block. simpl.
    destruct (collector_threshold_reached _ c); [intros [= _ <-]; by eexists |].
    destruct (negb _); [|done]. intros [= _ <-]; by eexists.
Qed.

Lemma emitted_events_have_transitions_witness :
  ∃ r', next_round DecisionMakingRound TRANSACT = Some r'.
Proof.
  apply (emitted_events_have_transitions DecisionMakingRound Scenarios.sd_pulled
           Scenarios.sd_decided
           (DecisionMakingPayloads
              (Scenarios.decision_votes TRANSACT (Some Scenarios.doc_25_12)))).
  vm_compute; reflexivity.
Defined.

(** X7. The transition function has no cycle but the retries: every
    entry either stays in its round or leads to a round closer to the end
    of the workflow. The rounds without entries are the final states, and
    they are the rounds with declared post-conditions; no step leaves
    them; every other round retries on NO_MAJORITY and on ROUND_TIMEOUT. *)
Theorem transition_function_progress :
  (∀ r ev r', next_round r ev = Some r' →
              r' = r ∨ Spec.progress_rank r' < Spec.progress_rank r)
  ∧ (∀ r, transition_function r = [] ↔ r ∈ final_states)
  ∧ (∀ r, is_Some (db_post_conditions r) ↔ r ∈ final_states)
  ∧ (∀ admissible r sd st, r ∈ final_states → ¬ step admissible (r, sd) st)
  ∧ (∀ r, r ∉ final_states →
          next_round r NO_MAJORITY = Some r ∧ next_round r ROUND_TIMEOUT = Some r).
Proof.
  assert (Hfinal : ∀ r, r ∈ final_states
                        ↔ r = FinishedDecisionMakingRound ∨ r = FinishedTxPreparationRound).
  { intros r. unfold final_states. rewrite !elem_of_cons, elem_of_nil. tauto. }
  split; [|split; [|split; [|split]]].
  - intros r ev r'. destruct r, ev; intros [= <-]; simpl; first [by left | right; lia].
  - intros r. rewrite Hfinal. destruct r; simpl; split; intros H;
      first [done | by left | by right | by destruct H].
  - intros r. rewrite Hfinal. destruct r; simpl; split; intros H;
      first [by destruct H | by left | by right | by eexists | by destruct H as [?|?]].
  - intros admissible r sd st Hr Hstep. apply Hfinal in Hr.
    inversion Hstep as [r0 sd0 c sd' ev r' _ Hres Hnext|r0 sd0 r' Hnext]; subst;
      destruct Hr as [-> | ->]; done.
  - intros r Hr. rewrite Hfinal in Hr. destruct r; try done; exfalso; apply Hr; tauto.
Qed.

(** ** More on runs *)

Lemma run_prepares_transaction :
  reachable (λ _, True) Scenarios.sd_initial
    (FinishedTxPreparationRound, Scenarios.sd_prepared).
Proof.
  unfold reachable, initial_round_cls.
  eapply rtc_l.
  { apply (step_end_block _ ApiSelectionRound Scenarios.sd_initial
             (ApiSelectionPayloads (Scenarios.api_votes "coingecko"))
             Scenarios.sd_selected COINGECKO DataPullRound);
      [done | vm_compute; reflexivity | reflexivity]. }
  eapply rtc_l.
  { apply (step_end_block _ DataPullRound Scenarios.sd_selected
             (DataPullPayloads Scenarios.data_votes)
             Scenarios.sd_pulled DONE DecisionMakingRound);
      [done | vm_compute; reflexivity | reflexivity]. }
  eapply rtc_l.
  { apply (step_end_block _ DecisionMakingRound Scenarios.sd_pulled
             (DecisionMakingPayloads
                (Scenarios.decision_votes TRANSACT (Some Scenarios.doc_25_12)))
             Scenarios.sd_decided TRANSACT TxPreparationRound);
      [done | vm_compute; reflexivity | reflexivity]. }
  eapply rtc_l; [|apply rtc_refl].
  apply (step_end_block _ TxPreparationRound Scenarios.sd_decided
           (TxPreparationPayloads Scenarios.tx_votes)
           Scenarios.sd_prepared DONE FinishedTxPreparationRound);
    [done | vm_compute; reflexivity | reflexivity].
Qed.

Lemma run_selects_coinmarketcap :
  reachable Spec.from_ApiSelectionBehaviour Scenarios.sd_initial
    (AlternativeDataPullRound, Scenarios.sd_alternative).
Proof.
  unfold reachable, initial_round_cls. eapply rtc_l; [|apply rtc_refl].
  apply (step_end_block _ ApiSelectionRound Scenarios.sd_initial
           (ApiSelectionPayloads (Scenarios.api_votes "coinmarketcap"))
           Scenarios.sd_alternative COINMARKETCAP AlternativeDataPullRound);
    [|vm_compute; reflexivity | reflexivity].
  simpl. unfold Scenarios.api_votes. apply Forall_fmap, Forall_forall.
  intros agent _. simpl. by eexists.
Qed.

(** X8. The workflow writes eight keys of the store and no other:
    along every run, whatever the collections, every other key reads as
    it did at the start (participant_to_decision_making_round among them:
    it is never written), and the number of participants is the same. *)
Theorem workflow_written_keys (admissible : Collection → Prop)
    (sd0 sd : SynchronizedData.t) (r : AppState) (k : string) :
  reachable admissible sd0 (r, sd) →
  k ∉ ["api_selection"; "token_values"; "total_portfolio_value";
       "participant_to_data_round"; "adjustment_balances"; "tx_submitter";
       "most_voted_tx_hash"; "participant_to_tx_round"] →
  SynchronizedData.db sd !! k = SynchronizedData.db sd0 !! k
  ∧ SynchronizedData.nb_participants sd = SynchronizedData.nb_participants sd0.
Proof.
  intros Hrun Hk. unfold reachable in Hrun.
  change (SynchronizedData.db (r, sd).2 !! k = SynchronizedData.db sd0 !! k
          ∧ SynchronizedData.nb_participants (r, sd).2
            = SynchronizedData.nb_participants sd0).
  revert Hrun. generalize (r, sd). clear r sd. apply rtc_ind_r; [done |].
  intros st st' _ Hstep [IHk IHn].
  destruct Hstep as [r sd c sd' ev r' _ Hres _|r sd r' _]; [|done]. simpl in *.
  rewrite <- IHk, <- IHn. split.
  - apply (end_block_frame r sd sd' c ev k Hres).
    intros Hin. apply Hk.
    destruct r; simpl in Hin;
      repeat (apply elem_of_cons in Hin as [-> | Hin]; [solve_key |]);
      by apply elem_of_nil in Hin.
  - destruct (end_block_shape _ _ _ _ _ Hres) as (kwargs & -> & _). done.
Qed.

Lemma workflow_written_keys_witness :
  SynchronizedData.db Scenarios.sd_prepared !! "participant_to_decision_making_round"
  = None
  ∧ SynchronizedData.nb_participants Scenarios.sd_prepared = 4.
Proof.
  apply (workflow_written_keys (λ _, True) Scenarios.sd_initial Scenarios.sd_prepared
           FinishedTxPreparationRound "participant_to_decision_making_round").
  - exact run_prepares_transaction.
  - apply (bool_decide_unpack _). vm_compute; reflexivity.
Defined.

Lemma DataPull_DONE_projects (r : AppState) (sd sd' : SynchronizedData.t) (c : Collection) :
  r = DataPullRound ∨ r = AlternativeDataPullRound →
  end_block r sd c = Some (sd', DONE) →
  is_Some (SynchronizedData.db sd' !! "token_values")
  ∧ is_Some (SynchronizedData.db sd' !! "total_portfolio_value")
  ∧ is_Some (SynchronizedData.db sd' !! "participant_to_data_round").
Proof.
  intros [-> | ->]; destruct c as [c|c|c|c|c]; try done; simpl;
    unfold DataPullRound_end_block, AlternativeDataPullRound_end_block,
      CollectSameUntilThresholdRound_end_block; simpl;
    (destruct (collector_threshold_reached _ c) eqn:Hq;
     [destruct (threshold_reached_elem _ _ Hq) as (p & _ & ->); intros [= <-];
      repeat split; apply update_in; solve_key
     | by destruct (negb _)]).
Qed.

Lemma DecisionMaking_TRANSACT_stores (sd sd' : SynchronizedData.t) (c : Collection) :
  end_block DecisionMakingRound sd c = Some (sd', TRANSACT) →
  ∃ text, SynchronizedData.db sd' !! "adjustment_balances" = Some (VScalar (SStr text)).
Proof.
  destruct c as [c|c|c|c|c]; try done; simpl.
  unfold DecisionMakingRound_end_block. simpl.
  destruct (collector_threshold_reached _ c).
  - destruct (List.find _ c) as [p|]; [|done].
    destruct (DecisionMakingPayload.adjustment_balances p) as [text|]; [|done].
    intros [= <-]. exists text. simpl. by rewrite lookup_insert_eq.
  - by destruct (negb _).
Qed.

(** X9. What a round finds in the store. Along every run, from
    DecisionMakingRound on the store holds token_values,
    total_portfolio_value and participant_to_data_round, and in
    TxPreparationRound and FinishedTxPreparationRound it holds a string
    under adjustment_balances. *)
Theorem store_on_entry (admissible : Collection → Prop)
    (sd0 sd : SynchronizedData.t) (r : AppState) :
  reachable admissible sd0 (r, sd) →
  (Spec.progress_rank r ≤ 2 →
   is_Some (SynchronizedData.db sd !! "token_values")
   ∧ is_Some (SynchronizedData.db sd !! "total_portfolio_value")
   ∧ is_Some (SynchronizedData.db sd !! "participant_to_data_round"))
  ∧ (r = TxPreparationRound ∨ r = FinishedTxPreparationRound →
     ∃ text, SynchronizedData.db sd !! "adjustment_balances"
             = Some (VScalar (SStr text))).
Proof.
  intros Hrun. unfold reachable in Hrun.
  change ((Spec.progress_rank (r, sd).1 ≤ 2 →
           is_Some (SynchronizedData.db (r, sd).2 !! "token_values")
           ∧ is_Some (SynchronizedData.db (r, sd).2 !! "total_portfolio_value")
           ∧ is_Some (SynchronizedData.db (r, sd).2 !! "participant_to_data_round"))
          ∧ ((r, sd).1 = TxPreparationRound ∨ (r, sd).1 = FinishedTxPreparationRound →
             ∃ text, SynchronizedData.db (r, sd).2 !! "adjustment_balances"
                     = Some (VScalar (SStr text)))).
  revert Hrun. generalize (r, sd). clear r sd. apply rtc_ind_r.
  - simpl. split; [lia | by intros [?|?]].
  - intros st st' _ Hstep [IHdata IHadj].
    destruct Hstep as [r sd c sd' ev r' _ Hres Hnext|r sd r' Hnext]; simpl in *.
    + split.
      * intros Hrank.
        destruct (decide (Spec.progress_rank r ≤ 2)) as [Hr|Hr].
        -- destruct (IHdata Hr) as (H1 & H2 & H3).
           repeat split; by apply (end_block_mono r sd sd' c ev).
        -- assert (Hfrom : (r = DataPullRound ∨ r = AlternativeDataPullRound) ∧ ev = DONE).
           { destruct r, ev; try discriminate Hnext; injection Hnext as <-;
               simpl in Hr, Hrank; try lia; split; tauto. }
           destruct Hfrom as [Hfrom ->]. by apply (DataPull_DONE_projects r sd sd' c).
      * intros Hr'.
        assert (Hfrom : (r = DecisionMakingRound ∧ ev = TRANSACT) ∨ r = TxPreparationRound).
        { destruct Hr' as [-> | ->]; destruct r, ev; try done; tauto. }
        destruct Hfrom as [[-> ->] | ->].
        -- by apply (DecisionMaking_TRANSACT_stores sd sd' c).
        -- destruct IHadj as [text Htext]; [by left |]. exists text.
           rewrite <- Htext. apply (end_block_frame _ _ _ _ _ _ Hres). solve_key.
    + assert (r' = r) as ->
      by (destruct r; try discriminate Hnext; by injection Hnext as <-).
      done.
Qed.

Lemma store_on_entry_witness :
  ∃ text, SynchronizedData.db Scenarios.sd_prepared !! "adjustment_balances"
          = Some (VScalar (SStr text)).
Proof.
  apply (store_on_entry (λ _, True) Scenarios.sd_initial Scenarios.sd_prepared
           FinishedTxPreparationRound run_prepares_transaction).
  by right.
Defined.

(** X10. From a store without api_selection, with the payloads of
    ApiSelectionRound submitted by ApiSelectionBehaviour, the data-pull
    round that runs is the one of the API that is read from the store:
    in DataPullRound api_selection reads "coingecko", in
    AlternativeDataPullRound it reads "coinmarketcap", and while
    ApiSelectionRound is active the key is still unset. *)
Theorem rounds_follow_selection (sd0 sd : SynchronizedData.t) (r : AppState) :
  SynchronizedData.db sd0 !! "api_selection" = None →
  reachable Spec.from_ApiSelectionBehaviour sd0 (r, sd) →
  (r = ApiSelectionRound → SynchronizedData.db sd !! "api_selection" = None)
  ∧ (r = DataPullRound →
     SynchronizedData.api_selection sd = VScalar (SStr "coingecko"))
  ∧ (r = AlternativeDataPullRound →
     SynchronizedData.api_selection sd = VScalar (SStr "coinmarketcap")).
Proof.
  intros Hnone Hrun. unfold reachable in Hrun.
  change (((r, sd).1 = ApiSelectionRound →
           SynchronizedData.db (r, sd).2 !! "api_selection" = None)
          ∧ ((r, sd).1 = DataPullRound →
             SynchronizedData.api_selection (r, sd).2 = VScalar (SStr "coingecko"))
          ∧ ((r, sd).1 = AlternativeDataPullRound →
             SynchronizedData.api_selection (r, sd).2 = VScalar (SStr "coinmarketcap"))).
  revert Hrun. generalize (r, sd). clear r sd. apply rtc_ind_r; [done |].
  intros st st' _ Hstep (IHapi & IHcg & IHcmc).
  destruct Hstep as [r sd c sd' ev r' Hc Hres Hnext|r sd r' Hnext]; simpl in *.
  2: { assert (r' = r) as ->
      by (destruct r; try discriminate Hnext; by injection Hnext as <-). done. }
  destruct r;
    try (destruct ev; try discriminate Hnext; injection Hnext as <-;
         repeat split; other_round).
  - (* out of ApiSelectionRound *)
    specialize (IHapi eq_refl).
    destruct c as [c|c|c|c|c]; try done. simpl in Hres, Hc.
    unfold ApiSelectionRound_end_block in Hres. simpl in Hres.
    destruct (collector_threshold_reached _ c) eqn:Hq; [|done].
    destruct (threshold_reached_elem _ _ Hq) as (p & Hp & Hmv).
    rewrite Forall_forall in Hc. destruct (Hc p Hp) as [ctx ->].
    unfold most_voted_payload, SynchronizedData.api_selection,
      SynchronizedData.db_get in Hres.
    cbn [synchronized_data most_voted_payload_values round_state] in Hres.
    rewrite Hmv, IHapi in Hres.
    cbn [values ApiSelectionPayload_cls first_value default] in Hres.
    rewrite ApiSelectionBehaviour_async_act_normalized in Hres.
    destruct (String.eqb _ "coinmarketcap"); simpl in Hres;
      injection Hres as <- <-; injection Hnext as <-.
    + split; [other_round |]. split; [other_round |]. intros _.
      unfold SynchronizedData.api_selection, SynchronizedData.db_get. simpl.
      by rewrite lookup_insert_eq.
    + split; [other_round |]. split; [|other_round]. intros _.
      unfold SynchronizedData.api_selection, SynchronizedData.db_get.
      by rewrite IHapi.
  - (* DataPullRound *)
    destruct ev; try discriminate Hnext; injection Hnext as <-;
      (split; [other_round |]; split; [|other_round]); try (other_round); intros _;
      (rewrite (api_selection_frame sd sd'); [by apply IHcg |]);
      apply (end_block_frame _ _ _ _ _ _ Hres); solve_key.
  - (* AlternativeDataPullRound *)
    destruct ev; try discriminate Hnext; injection Hnext as <-;
      (split; [other_round |]; split; [other_round |]); try (other_round); intros _;
      (rewrite (api_selection_frame sd sd'); [by apply IHcmc |]);
      apply (end_block_frame _ _ _ _ _ _ Hres); solve_key.
Qed.

Lemma rounds_follow_selection_witness :
  SynchronizedData.api_selection Scenarios.sd_alternative
  = VScalar (SStr "coinmarketcap").
Proof.
  apply (rounds_follow_selection Scenarios.sd_initial Scenarios.sd_alternative
           AlternativeDataPullRound eq_refl run_selects_coinmarketcap).
  reflexivity.
Defined.

(** ** More on the behaviours *)

Section MoreResFacts.
Context {A B : Type}.

Lemma mapM_Raise (f : A → Res B) (l : list A) (e : Exc) :
  mapM f l = Raise e → ∃ x, x ∈ l ∧ f x = Raise e.
Proof.
  induction l as [|x l IH]; simpl; [done |].
  destruct (f x) as [y|e'] eqn:Hx; simpl.
  - destruct (mapM f l) as [k|e'']; simpl; [done |]. intros [= ->].
    destruct (IH eq_refl) as (x' & Hin & Hx'). exists x'.
    split; [by apply elem_of_cons; right | done].
  - intros [= ->]. exists x. split; [by apply elem_of_cons; left | done].
Qed.

Lemma mapM_Forall2 (f : A → Res B) (l : list A) (k : list B) :
  mapM f l = Return k → Forall2 (λ x y, f x = Return y) l k.
Proof.
  revert k. induction l as [|x l IH]; intros k; simpl.
  - intros [= <-]. constructor.
  - destruct (f x) as [y|e] eqn:Hx; simpl; [|done].
    destruct (mapM f l) as [k'|e]; simpl; [|done]. intros [= <-].
    constructor; [done | by apply IH].
Qed.

Lemma mapM_ext (f g : A → Res B) (l : list A) :
  (∀ x, x ∈ l → f x = g x) → mapM f l = mapM g l.
Proof.
  induction l as [|x l IH]; intros Hfg; simpl; [done |].
  rewrite (Hfg x) by (by apply elem_of_cons; left).
  rewrite IH; [done |]. intros y Hy. apply Hfg. by apply elem_of_cons; right.
Qed.
End MoreResFacts.

Lemma truediv_Raise (a b : float) (e : Exc) :
  Py.truediv a b = Raise e → e = ZeroDivisionError ∧ (b =? 0)%float = true.
Proof. unfold Py.truediv. destruct (b =? 0)%float; [by intros [= <-] | done]. Qed.

Lemma truediv_zero (a b : float) :
  (b =? 0)%float = true → Py.truediv a b = Raise ZeroDivisionError.
Proof. intros Hb. unfold Py.truediv. by rewrite Hb. Qed.

Lemma getitem_Raise {A} (l : list A) (i : nat) (e : Exc) :
  Py.getitem l i = Raise e → e = IndexError ∧ length l ≤ i.
Proof.
  unfold Py.getitem. destruct (l !! i) eqn:Hi; [done |]. intros [= <-].
  split; [done | by apply lookup_ge_None].
Qed.

Lemma keys_setitem_elem {V} (d : PyDict.t V) (k k' : string) (v : V) :
  k' ∈ PyDict.keys (PyDict.setitem d k v) → k' = k ∨ k' ∈ PyDict.keys d.
Proof.
  destruct (PyDict.get d k) eqn:E.
  - rewrite keys_setitem_present; [by right |].
    destruct (decide (k ∈ PyDict.keys d)) as [|Hn]; [done |].
    apply get_None_keys in Hn. congruence.
  - rewrite setitem_fresh by done. unfold PyDict.keys. rewrite fmap_app, elem_of_app.
    simpl. intros [?|Hk]; [by right |]. apply list_elem_of_singleton in Hk. by left.
Qed.

Lemma foldl_setitem_fresh {V} (f : string → V) (l : list string) (d : PyDict.t V) :
  NoDup l → (∀ t, t ∈ l → PyDict.get d t = None) →
  foldl (λ b k, PyDict.setitem b k (f k)) d l = d ++ ((λ t, (t, f t)) <$> l).
Proof.
  revert d. induction l as [|a l IH]; intros d Hnd Hfresh; simpl.
  - by rewrite app_nil_r.
  - apply NoDup_cons in Hnd as [Ha Hnd].
    rewrite setitem_fresh by (by apply Hfresh, elem_of_cons; left).
    rewrite IH; [by rewrite <- app_assoc | done |].
    intros t Ht. rewrite <- (setitem_fresh d a (f a))
      by (by apply Hfresh, elem_of_cons; left).
    rewrite get_setitem_ne by (intros ->; done).
    by apply Hfresh, elem_of_cons; right.
Qed.

Lemma get_token_balances_lookup (ctx : Context) (balances : PyDict.t (option float))
    (t : string) :
  get_token_balances ctx = Some balances →
  PyDict.get balances t =
  if decide (t ∈ Params.tokens_to_rebalance (params ctx))
  then Some (getBalance ctx t) else None.
Proof.
  unfold get_token_balances. destruct (PyDict.truthy _); [|done]. intros [= <-].
  by rewrite (foldl_setitem_get (getBalance ctx)).
Qed.

Lemma get_token_balances_NoDup (ctx : Context) (balances : PyDict.t (option float)) :
  get_token_balances ctx = Some balances → NoDup (PyDict.keys balances).
Proof.
  unfold get_token_balances. destruct (PyDict.truthy _); [|done]. intros [= <-].
  apply foldl_setitem_NoDup, NoDup_nil_2.
Qed.

(** X11. get_token_balances returns None exactly when no token is
    tracked. Otherwise it returns a dict with one key per tracked token,
    each holding what the balance reader answered for it (None when the
    read failed), and nothing else; when the tracked tokens are distinct
    the keys are the tracked tokens in their order. *)
Theorem get_token_balances_spec (ctx : Context) :
  (get_token_balances ctx = None ↔ Params.tokens_to_rebalance (params ctx) = [])
  ∧ (∀ balances,
       get_token_balances ctx = Some balances →
       NoDup (PyDict.keys balances)
       ∧ (∀ t, PyDict.get balances t =
               if decide (t ∈ Params.tokens_to_rebalance (params ctx))
               then Some (getBalance ctx t) else None)
       ∧ (NoDup (Params.tokens_to_rebalance (params ctx)) →
          balances = (λ t, (t, getBalance ctx t))
                     <$> Params.tokens_to_rebalance (params ctx))).
Proof.
  split.
  - unfold get_token_balances. rewrite (foldl_setitem_truthy (getBalance ctx)). simpl.
    destruct (Params.tokens_to_rebalance (params ctx)) as [|a l]; [done |].
    destruct (bool_decide (a :: l ≠ [])) eqn:Hne.
    + split; intros Hnil; discriminate Hnil.
    + apply bool_decide_eq_false in Hne. exfalso. apply Hne. discriminate.
  - intros balances Hbal. split; [by apply (get_token_balances_NoDup ctx) |].
    split; [intros t; by apply get_token_balances_lookup |].
    intros Hnd. unfold get_token_balances in Hbal.
    destruct (PyDict.truthy _); [|done].
    injection Hbal as <-. by rewrite (foldl_setitem_fresh (getBalance ctx)).
Qed.

(** The shape of calculate_portfolio_allocation: the balances, the
    valuation loop, the zero test, and the report, whose result is
    dropped. *)
Lemma calculate_portfolio_allocation_unfold
    (price : Context → string → option float) (ctx : Context) :
  calculate_portfolio_allocation price ctx =
  match get_token_balances ctx with
  | None => Return None
  | Some balances =>
      let '(tv, total) := allocation_loop price ctx balances PyDict.empty 0%float in
      if (total =? 0)%float then Return None
      else
        match generate_and_store_report price ctx tv total with
        | Return _ => Return (Some (tv, total))
        | Raise e => Raise e
        end
  end.
Proof.
  unfold calculate_portfolio_allocation.
  destruct (get_token_balances ctx) as [balances|]; [|done].
  unfold PyDict.items. destruct (allocation_loop _ _ _ _ _) as [tv total].
  destruct (total =? 0)%float eqn:Hz; [done |].
  match goal with
  | |- context [mapM ?f ?l] => destruct (mapM_Return f l) as [k ->]
  end.
  { apply Forall_forall. intros [t v] _. rewrite (truediv_nonzero _ _ Hz).
    simpl. by eexists. }
  simpl. by destruct (generate_and_store_report _ _ _ _).
Qed.

Lemma allocation_valued (price : Context → string → option float) (ctx : Context)
    (balances : PyDict.t (option float)) (tv : PyDict.t float) (total : float) :
  get_token_balances ctx = Some balances →
  allocation_loop price ctx balances PyDict.empty 0%float = (tv, total) →
  (∀ t, PyDict.get tv t =
        if decide (t ∈ Params.tokens_to_rebalance (params ctx))
        then b ← getBalance ctx t; p ← price ctx t; Some (b * p)%float
        else None)
  ∧ total = Py.sum (PyDict.values tv).
Proof.
  intros Hbal Hloop.
  pose proof (get_token_balances_NoDup ctx balances Hbal) as Hnd.
  pose proof (λ t, get_token_balances_lookup ctx balances t Hbal) as Hget.
  destruct (allocation_loop_spec price ctx _ _ _ _ _ Hnd
              (λ k _, eq_refl (PyDict.get (V := float) PyDict.empty k)) Hloop)
    as [Hval (new & Hvals & Htot)].
  split.
  - intros t. rewrite Hval, Hget. by destruct (decide _).
  - simpl in Hvals. by rewrite Hvals.
Qed.

Lemma index_Return (l : list string) (x : string) (i : nat) :
  Py.index l x = Return i → l !! i = Some x.
Proof.
  revert i. induction l as [|y l IH]; intros i; simpl; [done |].
  destruct (String.eqb_spec y x) as [->|Hne]; [by intros [= <-] |].
  destruct (Py.index l x) as [j|e]; simpl; [|done]. intros [= <-]. by apply IH.
Qed.

Section AllocationErrors.
Variable price : Context → string → option float.
Variable ctx : Context.

Lemma generate_and_store_report_Raise (tv : PyDict.t float) (total : float) (e : Exc) :
  (total =? 0)%float = false →
  (∀ t, t ∈ PyDict.keys tv → t ∈ Params.tokens_to_rebalance (params ctx)) →
  generate_and_store_report price ctx tv total = Raise e →
  e = IndexError
  ∧ length (Params.target_percentages (params ctx))
    < length (Params.tokens_to_rebalance (params ctx)).
Proof.
  intros Htot Hkeys. unfold generate_and_store_report.
  destruct (mapM _ _) as [k|e'] eqn:Hm; simpl; [done |]. intros [= ->].
  apply mapM_Raise in Hm as ([t usd] & Hin & Hf).
  assert (Ht : t ∈ PyDict.keys tv).
  { unfold PyDict.keys. apply list_elem_of_fmap. by exists (t, usd). }
  destruct (index_elem_of _ _ (Hkeys t Ht)) as (i & Hidx & Hi).
  rewrite Hidx in Hf. simpl in Hf.
  destruct (Py.getitem _ i) as [pct|e'] eqn:Hget; simpl in Hf.
  - rewrite (truediv_nonzero _ _ Htot) in Hf. simpl in Hf.
    destruct (price ctx t) as [p|]; [|done].
    destruct (p =? 0)%float eqn:Hp; [done |].
    by rewrite (truediv_nonzero _ _ Hp) in Hf.
  - injection Hf as <-. apply getitem_Raise in Hget as [-> Hlen]. split; [done | lia].
Qed.

Lemma allocation_keys_tracked (balances : PyDict.t (option float))
    (tv : PyDict.t float) (total : float) (t : string) :
  get_token_balances ctx = Some balances →
  allocation_loop price ctx balances PyDict.empty 0%float = (tv, total) →
  t ∈ PyDict.keys tv →
  t ∈ Params.tokens_to_rebalance (params ctx) ∧ is_Some (price ctx t).
Proof.
  intros Hbal Hloop Ht.
  destruct (allocation_valued price ctx balances tv total Hbal Hloop) as [Hget _].
  destruct (PyDict.get tv t) as [v|] eqn:Hv.
  - rewrite Hget in Hv. destruct (decide _) as [Hin|]; [|done]. split; [done |].
    destruct (getBalance ctx t); [|done]. simpl in Hv. by destruct (price ctx t).
  - apply get_None_keys in Hv. done.
Qed.
End AllocationErrors.

(** When [calculate_portfolio_allocation] raises, it is the report that
    raised, over a valuation whose keys are tracked tokens. *)
Lemma calculate_portfolio_allocation_Raise_inv
    (price : Context → string → option float) (ctx : Context) (e : Exc) :
  calculate_portfolio_allocation price ctx = Raise e →
  ∃ tv total,
    (total =? 0)%float = false
    ∧ (∀ t, t ∈ PyDict.keys tv → t ∈ Params.tokens_to_rebalance (params ctx))
    ∧ generate_and_store_report price ctx tv total = Raise e.
Proof.
  rewrite calculate_portfolio_allocation_unfold.
  destruct (get_token_balances ctx) as [balances|] eqn:Hbal; [|done].
  destruct (allocation_loop _ _ _ _ _) as [tv total] eqn:Hloop.
  destruct (total =? 0)%float eqn:Hz; [done |].
  destruct (generate_and_store_report _ _ _ _) as [h|e'] eqn:Hrep; [done |].
  intros [= ->]. exists tv, total. split; [done |]. split; [|done].
  intros t Ht. by apply (allocation_keys_tracked price ctx balances tv total t).
Qed.

(** X12. calculate_portfolio_allocation raises nothing but an
    IndexError, and only when there are fewer target percentages than
    tracked tokens: none of its divisions can fail. *)
Theorem calculate_portfolio_allocation_raises
    (price : Context → string → option float) (ctx : Context) (e : Exc) :
  calculate_portfolio_allocation price ctx = Raise e →
  e = IndexError
  ∧ length (Params.target_percentages (params ctx))
    < length (Params.tokens_to_rebalance (params ctx)).
Proof.
  intros Hres.
  destruct (calculate_portfolio_allocation_Raise_inv price ctx e Hres)
    as (tv & total & Hz & Hkeys & Hrep).
  unfold generate_and_store_report in Hrep.
  destruct (mapM _ _) as [k|e'] eqn:Hm; simpl in Hrep; [done |]. injection Hrep as ->.
  apply mapM_Raise in Hm as ([t usd] & Hin & Hf).
  assert (Ht : t ∈ PyDict.keys tv).
  { unfold PyDict.keys. apply list_elem_of_fmap. by exists (t, usd). }
  destruct (index_elem_of _ _ (Hkeys t Ht)) as (i & Hidx & Hi).
  rewrite Hidx in Hf. simpl in Hf.
  destruct (Py.getitem _ i) as [pct|e'] eqn:Hget; simpl in Hf.
  - rewrite (truediv_nonzero _ _ Hz) in Hf. simpl in Hf.
    destruct (price ctx t) as [p|]; [|done].
    destruct (p =? 0)%float eqn:Hp; [done |].
    by rewrite (truediv_nonzero _ _ Hp) in Hf.
  - injection Hf as <-. apply getitem_Raise in Hget as [-> Hlen]. split; [done | lia].
Qed.

Lemma calculate_portfolio_allocation_raises_witness :
  AlternativeDataPullBehaviour_calculate_portfolio_allocation Scenarios.short_targets_ctx
  = Raise IndexError.
Proof.
  destruct (AlternativeDataPullBehaviour_calculate_portfolio_allocation
              Scenarios.short_targets_ctx) as [r|e] eqn:Hres.
  - vm_compute in Hres. discriminate Hres.
  - by destruct (calculate_portfolio_allocation_raises _ _ _ Hres) as [-> _].
Defined.

Lemma validate_params_lengths (self : Params.t) :
  Params.validate_params self = Return tt →
  length (Params.tokens_to_rebalance self) = length (Params.target_percentages self).
Proof.
  unfold Params.validate_params.
  destruct (Nat.eqb_spec (length (Params.tokens_to_rebalance self))
              (length (Params.target_percentages self))); done.
Qed.

Lemma allocation_Some_inv (price : Context → string → option float) (ctx : Context)
    (tv : PyDict.t float) (total : float) :
  calculate_portfolio_allocation price ctx = Return (Some (tv, total)) →
  ∃ balances,
    get_token_balances ctx = Some balances
    ∧ allocation_loop price ctx balances PyDict.empty 0%float = (tv, total)
    ∧ (total =? 0)%float = false.
Proof.
  rewrite calculate_portfolio_allocation_unfold.
  destruct (get_token_balances ctx) as [balances|] eqn:Hbal; [|done].
  destruct (allocation_loop _ _ _ _ _) as [tv' total'] eqn:Hloop.
  destruct (total' =? 0)%float eqn:Hz; [done |].
  destruct (generate_and_store_report _ _ _ _); [|done]. intros [= <- <-].
  by exists balances.
Qed.

Lemma allocation_None_when_unpriced (price : Context → string → option float)
    (ctx : Context) :
  (∀ t, t ∈ Params.tokens_to_rebalance (params ctx) → price ctx t = None) →
  calculate_portfolio_allocation price ctx = Return None.
Proof.
  intros Hnone. rewrite calculate_portfolio_allocation_unfold.
  destruct (get_token_balances ctx) as [balances|] eqn:Hbal; [|done].
  destruct (allocation_loop _ _ _ _ _) as [tv total] eqn:Hloop.
  destruct (allocation_valued price ctx balances tv total Hbal Hloop) as [_ Htot].
  assert (Htv : tv = []).
  { destruct tv as [|[t v] tv]; [done |]. exfalso.
    destruct (allocation_keys_tracked price ctx balances _ total t Hbal Hloop)
      as [Hin [p Hp]].
    - unfold PyDict.keys. csimpl. by apply elem_of_cons; left.
    - by rewrite (Hnone t Hin) in Hp. }
  subst tv. rewrite Htot. reflexivity.
Qed.

(** X13. The price lookup of DataPullBehaviour knows ETH and USDC only.
    Whatever tokens are tracked, the token values its
    calculate_portfolio_allocation returns have no other key; when
    neither is tracked it returns None, and async_act raises a TypeError
    instead of submitting a payload. *)
Theorem DataPullBehaviour_values_ETH_USDC (ctx : Context) :
  (∀ token_values total,
     DataPullBehaviour_calculate_portfolio_allocation ctx
     = Return (Some (token_values, total)) →
     Forall (λ t, t = "ETH" ∨ t = "USDC") (PyDict.keys token_values))
  ∧ ("ETH" ∉ Params.tokens_to_rebalance (params ctx) →
     "USDC" ∉ Params.tokens_to_rebalance (params ctx) →
     DataPullBehaviour_calculate_portfolio_allocation ctx = Return None
     ∧ DataPullBehaviour_async_act ctx = Raise TypeError).
Proof.
  split.
  - intros tv total Hres. apply Forall_forall. intros t Ht.
    destruct (allocation_Some_inv _ ctx tv total Hres) as (balances & Hbal & Hloop & _).
    destruct (allocation_keys_tracked _ ctx balances tv total t Hbal Hloop Ht)
      as [_ [p Hp]].
    unfold DataPullBehaviour_get_token_price_specs in Hp.
    destruct (String.eqb_spec t "ETH"); [by left |].
    destruct (String.eqb_spec t "USDC"); [by right | done].
  - intros Heth Husdc.
    assert (Hnone : DataPullBehaviour_calculate_portfolio_allocation ctx = Return None).
    { apply allocation_None_when_unpriced. intros t Ht.
      unfold DataPullBehaviour_get_token_price_specs.
      destruct (String.eqb_spec t "ETH") as [->|]; [done |].
      by destruct (String.eqb_spec t "USDC") as [->|]. }
    split; [done |]. unfold DataPullBehaviour_async_act. by rewrite Hnone.
Qed.

Section AsyncAct.
Variable price : Context → string → option float.
Variable ctx : Context.

Lemma allocation_Some_nonempty (tv : PyDict.t float) (total : float) :
  calculate_portfolio_allocation price ctx = Return (Some (tv, total)) →
  PyDict.truthy tv = true ∧ (total =? 0)%float = false.
Proof.
  intros Hres. destruct (allocation_Some_inv _ _ _ _ Hres) as (balances & Hbal & Hloop & Hz).
  split; [|done].
  destruct (allocation_valued price ctx balances tv total Hbal Hloop) as [_ Htot].
  destruct tv; [|done]. rewrite Htot in Hz. discriminate Hz.
Qed.
End AsyncAct.

(** X14. What the data-pull behaviours submit. When
    calculate_portfolio_allocation returns a valuation, async_act submits
    a payload with the sender, the serialized token values, which are
    never empty and so never None, and the total, which is not zero; when
    it returns None, async_act raises a TypeError and submits nothing;
    when it raises, so does async_act. *)
Theorem data_pull_async_act_outcomes (ctx : Context) :
  match DataPullBehaviour_calculate_portfolio_allocation ctx with
  | Return (Some (token_values, total)) =>
      token_values ≠ [] ∧ (total =? 0)%float = false
      ∧ DataPullBehaviour_async_act ctx
        = Return {| DataPullPayload.sender := agent_address ctx;
                    DataPullPayload.token_values := Some (json_dumps ctx token_values);
                    DataPullPayload.total_portfolio_value := Some total |}
  | Return None => DataPullBehaviour_async_act ctx = Raise TypeError
  | Raise e => DataPullBehaviour_async_act ctx = Raise e
  end
  ∧ match AlternativeDataPullBehaviour_calculate_portfolio_allocation ctx with
    | Return (Some (token_values, total)) =>
        token_values ≠ [] ∧ (total =? 0)%float = false
        ∧ AlternativeDataPullBehaviour_async_act ctx
          = Return {| AlternativeDataPullPayload.sender := agent_address ctx;
                      AlternativeDataPullPayload.token_values :=
                        Some (json_dumps ctx token_values);
                      AlternativeDataPullPayload.total_portfolio_value := Some total |}
    | Return None => AlternativeDataPullBehaviour_async_act ctx = Raise TypeError
    | Raise e => AlternativeDataPullBehaviour_async_act ctx = Raise e
    end.
Proof.
  split.
  - unfold DataPullBehaviour_async_act.
    destruct (DataPullBehaviour_calculate_portfolio_allocation ctx)
      as [[[tv total]|]|e] eqn:Hres; [|done|done].
    destruct (allocation_Some_nonempty _ ctx tv total Hres) as [Htv Hz].
    split; [by destruct tv |]. split; [done |]. simpl. by rewrite Htv.
  - unfold AlternativeDataPullBehaviour_async_act.
    destruct (AlternativeDataPullBehaviour_calculate_portfolio_allocation ctx)
      as [[[tv total]|]|e] eqn:Hres; [|done|done].
    destruct (allocation_Some_nonempty _ ctx tv total Hres) as [Htv Hz].
    split; [by destruct tv |]. split; [done |]. simpl. by rewrite Htv.
Qed.

Section RebalancingErrors.
Variable ctx : Context.
Variable tv : PyDict.t float.
Variable total : float.

(** Destructs the divisions of one iteration. *)
Ltac step_cases H :=
  repeat match type of H with
         | context [Py.truediv ?a ?b] =>
             let E := fresh "Hdiv" in
             destruct (Py.truediv a b) as [?|?] eqn:E; simpl in H;
             [|apply truediv_Raise in E; destruct E as [E _]; subst]
         end.

Lemma rebalancing_step_Raise (acc : PyDict.t float) (i : nat) (t : string) (e : Exc) :
  rebalancing_step ctx tv total acc (i, t) = Raise e →
  (e = IndexError ∧ length (Params.target_percentages (params ctx)) ≤ i)
  ∨ e = ZeroDivisionError.
Proof.
  unfold rebalancing_step. intros H.
  destruct (Py.getitem _ i) as [p|e'] eqn:Hget; simpl in H.
  - right. destruct (DecisionMakingBehaviour_get_token_price_specs ctx t); [|done].
    step_cases H; try (by injection H as <-).
    by destruct (_ <? _)%float.
  - injection H as <-. left. by apply getitem_Raise in Hget.
Qed.

Lemma rebalancing_step_Return (acc acc' : PyDict.t float) (i : nat) (t : string) :
  rebalancing_step ctx tv total acc (i, t) = Return acc' →
  acc' = acc
  ∨ (∃ amount, acc' = PyDict.setitem acc t amount
               ∧ is_Some (coinmarketcap_usd ctx t)).
Proof.
  unfold rebalancing_step, DecisionMakingBehaviour_get_token_price_specs. intros H.
  destruct (Py.getitem _ i) as [p|e'] eqn:Hget; simpl in H; [|done].
  destruct (coinmarketcap_usd ctx t) as [pr|]; [|left; by injection H as <-].
  step_cases H; try done.
  destruct (_ <? _)%float; injection H as <-; [right | by left].
  eexists. split; [done | by eexists].
Qed.

Lemma rebalancing_loop_Raise (its : list (nat * string)) (acc : PyDict.t float) (e : Exc) :
  rebalancing_loop ctx tv total its acc = Raise e →
  (e = IndexError
   ∧ ∃ i t, (i, t) ∈ its ∧ length (Params.target_percentages (params ctx)) ≤ i)
  ∨ e = ZeroDivisionError.
Proof.
  revert acc. induction its as [|[i t] its IH]; intros acc; [done |].
  cbn [rebalancing_loop].
  destruct (rebalancing_step ctx tv total acc (i, t)) as [acc'|e'] eqn:Hstep; simpl.
  - intros Hloop. destruct (IH acc' Hloop) as [[-> (i' & t' & Hin & Hi)]| ->]; [|by right].
    left. split; [done |]. exists i', t'. split; [by apply elem_of_cons; right | done].
  - intros [= ->]. destruct (rebalancing_step_Raise _ _ _ _ Hstep) as [[-> Hi]| ->];
      [|by right].
    left. split; [done |]. exists i, t. split; [by apply elem_of_cons; left | done].
Qed.

Lemma rebalancing_loop_Return (its : list (nat * string)) (acc m : PyDict.t float) :
  rebalancing_loop ctx tv total its acc = Return m →
  NoDup (PyDict.keys acc) →
  NoDup (PyDict.keys m)
  ∧ ∀ t, t ∈ PyDict.keys m →
         t ∈ PyDict.keys acc ∨ (t ∈ its.*2 ∧ is_Some (coinmarketcap_usd ctx t)).
Proof.
  revert acc. induction its as [|[i t] its IH]; intros acc.
  - intros [= <-] Hnd. split; [done | by left].
  - cbn [rebalancing_loop].
    destruct (rebalancing_step ctx tv total acc (i, t)) as [acc'|e'] eqn:Hstep;
      simpl; [|done].
    intros Hloop Hnd.
    destruct (rebalancing_step_Return _ _ _ _ Hstep) as [->|(amount & -> & Hprice)].
    + destruct (IH acc Hloop Hnd) as [Hm Hkeys]. split; [done |].
      intros t' Ht'. destruct (Hkeys t' Ht') as [?|[? ?]]; [by left |].
      right. split; [by apply elem_of_cons; right | done].
    + destruct (IH _ Hloop (NoDup_keys_setitem acc t amount Hnd)) as [Hm Hkeys].
      split; [done |]. intros t' Ht'. destruct (Hkeys t' Ht') as [Hk|[? ?]].
      * apply keys_setitem_elem in Hk as [->|?]; [|by left].
        right. split; [by apply elem_of_cons; left | done].
      * right. split; [by apply elem_of_cons; right | done].
Qed.

Lemma rebalancing_loop_app (its1 its2 : list (nat * string)) (acc : PyDict.t float) :
  rebalancing_loop ctx tv total (its1 ++ its2) acc
  = rebalancing_loop ctx tv total its1 acc ≫= rebalancing_loop ctx tv total its2.
Proof.
  revert acc. induction its1 as [|it its1 IH]; intros acc; [done |].
  cbn [app rebalancing_loop].
  destruct (rebalancing_step ctx tv total acc it); simpl; [apply IH | done].
Qed.

Lemma rebalancing_loop_returns (its : list (nat * string)) (acc : PyDict.t float) :
  (total =? 0)%float = false →
  (∀ i t, (i, t) ∈ its →
          ∃ p, Params.target_percentages (params ctx) !! i = Some p
               ∧ Spec.divisible ctx total t p) →
  ∃ m, rebalancing_loop ctx tv total its acc = Return m.
Proof.
  intros Htot. revert acc. induction its as [|[i t] its IH]; intros acc Hpre.
  - by eexists.
  - cbn [rebalancing_loop]. destruct (Hpre i t) as (p & Hp & Hdiv); [by apply elem_of_cons; left |].
    rewrite (rebalancing_step_spec ctx tv total Htot acc i t p Hp Hdiv). simpl.
    apply IH. intros i' t' Hin. apply Hpre. by apply elem_of_cons; right.
Qed.

Lemma rebalancing_step_zero_divisor (acc : PyDict.t float) (i : nat) (t : string)
    (p price : float) :
  (total =? 0)%float = false →
  Params.target_percentages (params ctx) !! i = Some p →
  coinmarketcap_usd ctx t = Some price →
  (price =? 0)%float = true ∨ (Spec.target_value p total =? 0)%float = true →
  rebalancing_step ctx tv total acc (i, t) = Raise ZeroDivisionError.
Proof.
  intros Htot Hp Hprice Hzero.
  unfold rebalancing_step, DecisionMakingBehaviour_get_token_price_specs, Py.getitem.
  rewrite Hp, Hprice. simpl.
  destruct (price =? 0)%float eqn:Hpr.
  - rewrite (truediv_zero (default 0%float (PyDict.get tv t)) price Hpr). reflexivity.
  - destruct Hzero as [?|Hzero]; [done |]. unfold Spec.target_value in Hzero.
    repeat (first [ rewrite (truediv_nonzero _ _ Hpr)
                  | rewrite (truediv_nonzero _ _ Htot)
                  | rewrite (truediv_nonzero p 100) by reflexivity ]; simpl).
    rewrite (truediv_zero _ _ Hzero). reflexivity.
Qed.
End RebalancingErrors.

Lemma enumerate_app {A} (l1 l2 : list A) :
  Py.enumerate (l1 ++ l2)
  = Py.enumerate l1 ++ imap (λ i x, (length l1 + i, x)) l2.
Proof. unfold Py.enumerate. by rewrite imap_app. Qed.

Lemma calculate_rebalancing_actions_Raise (ctx : Context) (sd : SynchronizedData.t)
    (e : Exc) :
  calculate_rebalancing_actions ctx sd = Raise e →
  e = TypeError
  ∨ (e = IndexError
     ∧ length (Params.target_percentages (params ctx))
       < length (Params.tokens_to_rebalance (params ctx)))
  ∨ e = ZeroDivisionError.
Proof.
  unfold calculate_rebalancing_actions.
  destruct (SynchronizedData.token_values sd) as [[|json|]|]; simpl;
    try (intros [= <-]; by left);
    (destruct (SynchronizedData.total_portfolio_value sd) as [[| |total]|]; simpl;
     try done; try (intros [= <-]; by left);
     destruct (total <=? 0)%float; [done |];
     destruct (rebalancing_loop _ _ _ _ _) as [m|e'] eqn:Hloop; simpl; [done |];
     intros [= ->]; right;
     destruct (rebalancing_loop_Raise _ _ _ _ _ _ Hloop)
       as [[-> (i & t & Hin & Hi)] | ->]; [left | by right];
     split; [done |]; apply elem_of_enumerate, lookup_lt_Some in Hin; lia).
Qed.

(** X15. Parameters that pass validate_params rule out every
    IndexError: calculate_portfolio_allocation then never raises, and
    calculate_rebalancing_actions never raises an IndexError, whatever
    the store holds. *)
Theorem validated_params_rule_out_IndexError
    (price : Context → string → option float) (ctx : Context) :
  Params.validate_params (params ctx) = Return tt →
  (∃ allocation, calculate_portfolio_allocation price ctx = Return allocation)
  ∧ (∀ sd, calculate_rebalancing_actions ctx sd ≠ Raise IndexError).
Proof.
  intros Hvalid. apply validate_params_lengths in Hvalid. split.
  - destruct (calculate_portfolio_allocation price ctx) as [r|e] eqn:Hres; [by eexists |].
    destruct (calculate_portfolio_allocation_Raise_inv price ctx e Hres)
      as (tv & total & Hz & Hkeys & Hrep).
    apply (generate_and_store_report_Raise price ctx tv total e Hz Hkeys) in Hrep
      as [_ Hlen].
    lia.
  - intros sd Hres.
    destruct (calculate_rebalancing_actions_Raise ctx sd IndexError Hres)
      as [Hty|[[_ Hlen]|Hzero]]; [discriminate Hty | lia | discriminate Hzero].
Qed.

Lemma validated_params_rule_out_IndexError_witness :
  ∃ allocation,
    AlternativeDataPullBehaviour_calculate_portfolio_allocation
      (Scenarios.allocation_ctx "A" "B") = Return allocation.
Proof.
  apply (validated_params_rule_out_IndexError
           AlternativeDataPullBehaviour_get_token_price_specs
           (Scenarios.allocation_ctx "A" "B")).
  vm_compute; reflexivity.
Defined.

(** X16. What calculate_rebalancing_actions returns. It returns None
    exactly when the stored total is None or not above zero. A map it
    returns has distinct keys, each a tracked token for which
    CoinMarketCap gave a price: it never holds an untracked or an
    unpriced token. *)
Theorem calculate_rebalancing_actions_returns (ctx : Context) (sd : SynchronizedData.t)
    (result : option (PyDict.t float)) :
  calculate_rebalancing_actions ctx sd = Return result →
  match result with
  | None =>
      SynchronizedData.total_portfolio_value sd = VScalar SNone
      ∨ ∃ total, SynchronizedData.total_portfolio_value sd = VScalar (SFloat total)
                 ∧ (total <=? 0)%float = true
  | Some new_token_amounts =>
      (∃ total, SynchronizedData.total_portfolio_value sd = VScalar (SFloat total)
                ∧ (total <=? 0)%float = false)
      ∧ NoDup (PyDict.keys new_token_amounts)
      ∧ ∀ t, t ∈ PyDict.keys new_token_amounts →
             t ∈ Params.tokens_to_rebalance (params ctx)
             ∧ is_Some (coinmarketcap_usd ctx t)
  end.
Proof.
  unfold calculate_rebalancing_actions.
  destruct (SynchronizedData.token_values sd) as [[|json|]|]; simpl; try done;
    (destruct (SynchronizedData.total_portfolio_value sd) as [[| |total]|]; simpl;
     try done; [intros [= <-]; by left |];
     destruct (total <=? 0)%float eqn:Hle; [intros [= <-]; right; by exists total |];
     destruct (rebalancing_loop _ _ _ _ _) as [m|e'] eqn:Hloop; simpl; [|done];
     intros [= <-];
     destruct (rebalancing_loop_Return _ _ _ _ _ _ Hloop (NoDup_nil_2)) as [Hnd Hkeys];
     split; [by exists total |]; split; [done |];
     intros t Ht; destruct (Hkeys t Ht) as [Hin|[Hin Hprice]];
     [by apply elem_of_nil in Hin | by rewrite enumerate_snd in Hin]).
Qed.

Lemma calculate_rebalancing_actions_returns_witness :
  NoDup (PyDict.keys [("A", 25%float); ("B", 12.5%float)])
  ∧ is_Some (coinmarketcap_usd (Scenarios.rebalancing_ctx 5) "A").
Proof.
  destruct (calculate_rebalancing_actions_returns (Scenarios.rebalancing_ctx 5)
              Scenarios.sd_60_40 (Some [("A", 25%float); ("B", 12.5%float)]))
    as (_ & Hnd & Hkeys).
  - vm_compute; reflexivity.
  - split; [exact Hnd |]. apply Hkeys.
    apply (bool_decide_unpack _). vm_compute; reflexivity.
Defined.





Lemma foldl_setitem_ext {V} (f g : string → V) (l : list string) (d : PyDict.t V) :
  (∀ t, t ∈ l → f t = g t) →
  foldl (λ b k, PyDict.setitem b k (f k)) d l
  = foldl (λ b k, PyDict.setitem b k (g k)) d l.
Proof.
  revert d. induction l as [|a l IH]; intros d Hfg; simpl; [done |].
  rewrite (Hfg a) by (by apply elem_of_cons; left).
  apply IH. intros t Ht. apply Hfg. by apply elem_of_cons; right.
Qed.

Lemma allocation_loop_ext (price : Context → string → option float)
    (ctx ctx' : Context) (items : list (string * option float))
    (tv : PyDict.t float) (total : float) :
  (∀ t, t ∈ items.*1 → price ctx t = price ctx' t) →
  allocation_loop price ctx items tv total = allocation_loop price ctx' items tv total.
Proof.
  revert tv total. induction items as [|[t [b|]] items IH]; intros tv total Hprice;
    simpl; [done | |].
  - rewrite <- (Hprice t) by (csimpl; by apply elem_of_cons; left).
    destruct (price ctx t); apply IH; intros t' Ht'; apply Hprice; csimpl;
      by apply elem_of_cons; right.
  - apply IH. intros t' Ht'. apply Hprice. csimpl. by apply elem_of_cons; right.
Qed.

(** X19. calculate_portfolio_allocation depends only on the tracked
    tokens, the target percentages, and the balances and prices of the
    tracked tokens. Whether the report reaches IPFS, and under which
    identifier, never changes what it returns or raises. *)
Theorem calculate_portfolio_allocation_reads
    (price : Context → string → option float) (ctx ctx' : Context) :
  Params.tokens_to_rebalance (params ctx) = Params.tokens_to_rebalance (params ctx') →
  Params.target_percentages (params ctx) = Params.target_percentages (params ctx') →
  (∀ t, t ∈ Params.tokens_to_rebalance (params ctx) →
        getBalance ctx t = getBalance ctx' t ∧ price ctx t = price ctx' t) →
  calculate_portfolio_allocation price ctx = calculate_portfolio_allocation price ctx'.
Proof.
  intros Htokens Htargets Hsame.
  rewrite !calculate_portfolio_allocation_unfold.
  assert (Hbal : get_token_balances ctx = get_token_balances ctx').
  { unfold get_token_balances. rewrite <- Htokens.
    rewrite (foldl_setitem_ext (getBalance ctx) (getBalance ctx')); [done |].
    intros t Ht. by apply Hsame. }
  rewrite <- Hbal. destruct (get_token_balances ctx) as [balances|] eqn:Hb; [|done].
  assert (Htracked : ∀ t, t ∈ PyDict.keys balances →
                          t ∈ Params.tokens_to_rebalance (params ctx)).
  { intros t Ht. pose proof (get_token_balances_lookup ctx balances t Hb) as Hget.
    destruct (decide _) as [|Hn]; [done |]. apply get_None_keys in Hget. done. }
  rewrite <- (allocation_loop_ext price ctx ctx')
    by (intros t Ht; by apply Hsame, Htracked).
  destruct (allocation_loop _ _ _ _ _) as [tv total] eqn:Hloop.
  destruct (total =? 0)%float; [done |].
  unfold generate_and_store_report. rewrite <- Htokens, <- Htargets.
  match goal with
  | |- context [mapM ?f (PyDict.items tv) ≫= (λ x, Return (send_to_ipfs ctx x))] =>
      match goal with
      | |- context [mapM ?g (PyDict.items tv) ≫= (λ x, Return (send_to_ipfs ctx' x))] =>
          rewrite (mapM_ext g f)
      end
  end.
  - by destruct (mapM _ _).
  - intros [t usd] Hin.
    assert (Ht : t ∈ PyDict.keys tv).
    { unfold PyDict.keys. apply list_elem_of_fmap. by exists (t, usd). }
    destruct (allocation_keys_tracked price ctx balances tv total t Hb Hloop Ht)
      as [Htok _].
    by destruct (Hsame t Htok) as [_ ->].
Qed.

Lemma calculate_portfolio_allocation_reads_witness :
  AlternativeDataPullBehaviour_calculate_portfolio_allocation
    (Scenarios.allocation_ctx "A" "B")
  = AlternativeDataPullBehaviour_calculate_portfolio_allocation
      (Scenarios.context_with_targets ["A"; "B"] [50%float; 50%float]
         [("A", 10%float); ("B", 0%float)] [("A", 2%float); ("B", 5%float)]).
Proof.
  apply (calculate_portfolio_allocation_reads
           AlternativeDataPullBehaviour_get_token_price_specs).
  - reflexivity.
  - reflexivity.
  - intros t _. split; reflexivity.
Defined.

Lemma rebalancing_loop_ext (ctx ctx' : Context) (tv : PyDict.t float) (total : float)
    (its : list (nat * string)) (acc : PyDict.t float) :
  Spec.same_rebalancing_params ctx ctx' →
  (∀ t, t ∈ its.*2 → coinmarketcap_usd ctx t = coinmarketcap_usd ctx' t) →
  rebalancing_loop ctx tv total its acc = rebalancing_loop ctx' tv total its acc.
Proof.
  intros (Htokens & Htargets & Hthr).
  revert acc. induction its as [|[i t] its IH]; intros acc Hprice; [done |].
  cbn [rebalancing_loop].
  assert (Hstep : rebalancing_step ctx tv total acc (i, t)
                  = rebalancing_step ctx' tv total acc (i, t)).
  { unfold rebalancing_step, DecisionMakingBehaviour_get_token_price_specs.
    rewrite <- Htargets, <- Hthr.
    by rewrite <- (Hprice t) by (csimpl; by apply elem_of_cons; left). }
  rewrite <- Hstep. destruct (rebalancing_step ctx tv total acc (i, t)); [|done].
  simpl. apply IH. intros t' Ht'. apply Hprice. csimpl. by apply elem_of_cons; right.
Qed.

(** X20. calculate_rebalancing_actions reads the store only through
    token_values and total_portfolio_value, and its context only through
    the three rebalancing parameters, the CoinMarketCap prices of the
    tracked tokens and the JSON parser. It does not read the agreed
    api_selection: the decision is taken on CoinMarketCap prices also
    after a data round that used CoinGecko. *)
Theorem calculate_rebalancing_actions_reads (ctx ctx' : Context)
    (sd sd' : SynchronizedData.t) :
  Spec.same_rebalancing_params ctx ctx' →
  (∀ t, t ∈ Params.tokens_to_rebalance (params ctx) →
        coinmarketcap_usd ctx t = coinmarketcap_usd ctx' t) →
  (∀ json, SynchronizedData.token_values sd = VScalar (SStr json) →
           json_loads ctx json = json_loads ctx' json) →
  SynchronizedData.token_values sd = SynchronizedData.token_values sd' →
  SynchronizedData.total_portfolio_value sd = SynchronizedData.total_portfolio_value sd' →
  calculate_rebalancing_actions ctx sd = calculate_rebalancing_actions ctx' sd'.
Proof.
  intros Hparams Hprice Hjson Htv Htotal.
  unfold calculate_rebalancing_actions. rewrite <- Htv, <- Htotal.
  destruct Hparams as (Htokens & Htargets & Hthr). rewrite <- Htokens.
  destruct (SynchronizedData.token_values sd) as [[|json|]|]; simpl; try done;
    try rewrite <- (Hjson json eq_refl);
    (destruct (SynchronizedData.total_portfolio_value sd) as [[| |total]|]; simpl;
     try done; destruct (total <=? 0)%float; [done |];
     rewrite (rebalancing_loop_ext ctx ctx'); [done | done |];
     intros t Ht; apply Hprice; by rewrite enumerate_snd in Ht).
Qed.

Lemma calculate_rebalancing_actions_reads_witness :
  calculate_rebalancing_actions (Scenarios.rebalancing_ctx 5) Scenarios.sd_60_40
  = calculate_rebalancing_actions
      (Scenarios.context_of "agent_1" "coingecko" ["A"; "B"] 5%float []
         [("ethereum", 2%float)] [("A", 2%float); ("B", 4%float)])
      Scenarios.sd_pulled.
Proof.
  apply calculate_rebalancing_actions_reads.
  - repeat split.
  - intros t _. reflexivity.
  - intros json _. reflexivity.
  - vm_compute; reflexivity.
  - vm_compute; reflexivity.
Defined.

(** What DataPullRound and AlternativeDataPullRound leave in the store
    once quorum is reached on a serialized valuation. *)
Lemma data_round_stores {P : Type} `{BaseTxPayload P} (cls : RoundClass)
    (self : RoundState P) (text : string) (total : float)
    (sd' : SynchronizedData.t) (ev : Event) :
  selection_key cls = ["token_values"; "total_portfolio_value"] →
  collection_key cls = "participant_to_data_round" →
  threshold_reached self = true →
  most_voted_payload_values self = [SStr text; SFloat total] →
  CollectSameUntilThresholdRound_end_block cls self = Some (sd', ev) →
  ev = done_event cls
  ∧ SynchronizedData.token_values sd' = VScalar (SStr text)
  ∧ SynchronizedData.total_portfolio_value sd' = VScalar (SFloat total).
Proof.
  intros Hsel Hcoll Hq Hmv. unfold CollectSameUntilThresholdRound_end_block.
  rewrite Hq, Hsel, Hcoll, Hmv. intros [= <- <-]. split; [done |].
  unfold SynchronizedData.token_values, SynchronizedData.total_portfolio_value,
    SynchronizedData.db_get. simpl.
  split.
  - rewrite lookup_insert_ne by solve_key. rewrite lookup_insert_ne by solve_key.
    by rewrite lookup_insert_eq.
  - rewrite lookup_insert_ne by solve_key. by rewrite lookup_insert_eq.
Qed.

Lemma calculate_rebalancing_actions_on (ctx : Context) (sd : SynchronizedData.t)
    (text : string) (tv : PyDict.t float) (total : float) :
  SynchronizedData.token_values sd = VScalar (SStr text) →
  SynchronizedData.total_portfolio_value sd = VScalar (SFloat total) →
  json_loads ctx text = Some tv →
  calculate_rebalancing_actions ctx sd
  = if (total <=? 0)%float then Return None
    else Some <$> rebalancing_loop ctx tv total
                    (Py.enumerate (Params.tokens_to_rebalance (params ctx)))
                    PyDict.empty.
Proof.
  intros Htv Htotal Hjson. unfold calculate_rebalancing_actions.
  by rewrite Htv, Htotal, Hjson.
Qed.

(** X21. From the valuation to the decision. When a data-pull behaviour
    computed a valuation, quorum is reached on the payload it submits, and
    the serialized token values parse back to the same dict, the round
    emits DONE and calculate_rebalancing_actions over the synchronized
    data it returns runs its loop on exactly that valuation: it takes
    neither TypeError branch, and it returns None only when the total is
    below zero. This holds for DataPullBehaviour with DataPullRound and
    for AlternativeDataPullBehaviour with AlternativeDataPullRound. *)
Theorem valuation_reaches_decision (ctx ctx' : Context)
    (token_values : PyDict.t float) (total : float) :
  json_loads ctx' (json_dumps ctx token_values) = Some token_values →
  let decision sd' :=
    calculate_rebalancing_actions ctx' sd'
    = if (total <? 0)%float then Return None
      else Some <$> rebalancing_loop ctx' token_values total
                      (Py.enumerate (Params.tokens_to_rebalance (params ctx')))
                      PyDict.empty in
  (DataPullBehaviour_calculate_portfolio_allocation ctx
   = Return (Some (token_values, total)) →
   ∀ self payload sd' ev,
     DataPullBehaviour_async_act ctx = Return payload →
     threshold_reached self = true →
     most_voted_payload_values self = values payload →
     DataPullRound_end_block self = Some (sd', ev) →
     ev = DONE ∧ decision sd')
  ∧ (AlternativeDataPullBehaviour_calculate_portfolio_allocation ctx
     = Return (Some (token_values, total)) →
     ∀ self payload sd' ev,
       AlternativeDataPullBehaviour_async_act ctx = Return payload →
       threshold_reached self = true →
       most_voted_payload_values self = values payload →
       AlternativeDataPullRound_end_block self = Some (sd', ev) →
       ev = DONE ∧ decision sd').
Proof.
  intros Hjson decision.
  assert (Hle : ∀ price, calculate_portfolio_allocation price ctx
                         = Return (Some (token_values, total)) →
                         PyDict.truthy token_values = true
                         ∧ (total <=? 0)%float = (total <? 0)%float).
  { intros price Hres.
    destruct (allocation_Some_nonempty price ctx _ _ Hres) as [Htv Hz].
    split; [done |]. rewrite FloatAxioms.leb_spec, FloatAxioms.ltb_spec.
    rewrite FloatAxioms.eqb_spec in Hz.
    unfold SFleb, SFltb, SFeqb in *. by destruct (SFcompare _ _) as [[| |]|]. }
  split; intros Hres self payload sd' ev Hact Hq Hmv Hend;
    destruct (Hle _ Hres) as [Htv Hlt]; unfold decision; rewrite <- Hlt.
  - unfold DataPullBehaviour_async_act in Hact. rewrite Hres in Hact. simpl in Hact.
    rewrite Htv in Hact. injection Hact as <-. simpl in Hmv.
    destruct (data_round_stores DataPullRound_cls self _ _ sd' ev
                eq_refl eq_refl Hq Hmv Hend) as (-> & Hstv & Hstot).
    split; [done |]. by apply (calculate_rebalancing_actions_on ctx' sd' _ _ _ Hstv Hstot).
  - unfold AlternativeDataPullBehaviour_async_act in Hact. rewrite Hres in Hact.
    simpl in Hact. rewrite Htv in Hact. injection Hact as <-. simpl in Hmv.
    destruct (data_round_stores AlternativeDataPullRound_cls self _ _ sd' ev
                eq_refl eq_refl Hq Hmv Hend) as (-> & Hstv & Hstot).
    split; [done |]. by apply (calculate_rebalancing_actions_on ctx' sd' _ _ _ Hstv Hstot).
Qed.

Lemma valuation_reaches_decision_witness :
  ∃ sd', AlternativeDataPullRound_end_block
           (round_state Scenarios.sd_alternative Scenarios.alternative_data_votes)
         = Some (sd', DONE)
         ∧ calculate_rebalancing_actions (Scenarios.rebalancing_ctx 5) sd'
           = Return (Some [("A", 25%float); ("B", 12.5%float)]).
Proof.
  destruct (AlternativeDataPullRound_end_block
              (round_state Scenarios.sd_alternative Scenarios.alternative_data_votes))
    as [[sd' ev]|] eqn:Hend; [|vm_compute in Hend; discriminate Hend].
  destruct (valuation_reaches_decision (Scenarios.rebalancing_ctx 5)
              (Scenarios.rebalancing_ctx 5)
              [("A", 60%float); ("B", 40%float)] 100%float) as [_ Halt].
  - vm_compute; reflexivity.
  - assert (Hres : AlternativeDataPullBehaviour_calculate_portfolio_allocation
                     (Scenarios.rebalancing_ctx 5)
                   = Return (Some ([("A", 60%float); ("B", 40%float)], 100%float)))
      by (vm_compute; reflexivity).
    destruct (Halt Hres
                (round_state Scenarios.sd_alternative Scenarios.alternative_data_votes)
                {| AlternativeDataPullPayload.sender := "agent_0";
                   AlternativeDataPullPayload.token_values := Some Scenarios.doc_60_40;
                   AlternativeDataPullPayload.total_portfolio_value := Some 100%float |}
                sd' ev) as [-> Hdecision].
    + vm_compute; reflexivity.
    + vm_compute; reflexivity.
    + vm_compute; reflexivity.
    + exact Hend.
    + exists sd'. split; [reflexivity |]. rewrite Hdecision. vm_compute; reflexivity.
Defined.
